(** * CubeModel.hpp: the Mi Smart Cube state model

    A shallow embedding of [CubeModel] (the header whose include guard is
    [_CUBE_MODEL_HPP]): the two constructors, [getEdgeColors],
    [getCornerColors], [getColor], [getFaceColors], [isSolved] and
    [operator==].

    Conventions of the embedding.
    - [uint8_t] values are integers of [Z]; the only place where the source
      wraps is the narrowing store [index = data[i] - 1], written [u8].
    - Every [enum class X : uint8_t] that the source produces by a cast from
      a raw byte ([FACE], [DIR], and the [EDGE]/[CORNER] switch selectors) is
      kept as its underlying integer, with the enumerators as named
      constants; [COLOR] is only ever produced from enumerators and is an
      inductive type.
    - [std::array<T, N>] is a vector [vec T N]; [array::at] throws
      [std::out_of_range] outside the bounds and [operator[]] has undefined
      behaviour there, which is what [result] records.
    - A local array that is declared without initialiser holds [None] in the
      cells no statement has assigned. *)

From Stdlib Require Import ZArith Lia Bool List.
From Stdlib Require Import Strings.Byte Strings.String.
From stdpp Require Import base tactics decidable option list vector.

Local Open Scope Z_scope.

(** ** Outcomes of a member function *)

Inductive result (A : Type) : Type :=
  | Ok (a : A)
  | Throw_out_of_range   (* std::out_of_range raised by array::at *)
  | Undefined.           (* read outside an array, or of a cell never assigned *)

Arguments Ok {A} a.
Arguments Throw_out_of_range {A}.
Arguments Undefined {A}.

Global Instance result_ret : MRet result := λ A a, Ok a.

Global Instance result_bind : MBind result := λ A B f m,
  match m with
  | Ok a => f a
  | Throw_out_of_range => Throw_out_of_range
  | Undefined => Undefined
  end.

(** ** Machine integers and fixed-size arrays *)

Definition u8 (z : Z) : Z := z mod 256.

Definition Z_of_byte (b : byte) : Z := Z.of_N (Byte.to_N b).

(** The cell of [a] at the unsigned offset [i], if there is one. *)
Definition arr_lookup {A n} (a : vec A n) (i : Z) : option A :=
  if decide (0 <= i) then vec_to_list a !! Z.to_nat i else None.

(** [a.at(i)] *)
Definition arr_at {A n} (a : vec A n) (i : Z) : result A :=
  match arr_lookup a i with
  | Some x => Ok x
  | None => Throw_out_of_range
  end.

(** [a[i]] as an rvalue *)
Definition arr_idx {A n} (a : vec A n) (i : Z) : result A :=
  match arr_lookup a i with
  | Some x => Ok x
  | None => Undefined
  end.

Fixpoint vec_alter {A n} (f : A → A) (i : nat) (v : vec A n) : vec A n :=
  match v with
  | vnil => vnil
  | vcons x v' =>
      match i with
      | O => vcons (f x) v'
      | S i' => vcons x (vec_alter f i' v')
      end
  end.

(** [a[i] = x] for an offset the source keeps inside the array. *)
Definition arr_set {A n} (a : vec A n) (i : Z) (x : A) : vec A n :=
  vec_alter (λ _, x) (Z.to_nat i) a.

(** [for (uint8_t i = 0; i < n; i++) a[i] = f(i);] on a fresh array. *)
Definition arr_init {A} (n : nat) (f : Z → A) : vec A n :=
  fun_to_vec (λ i : fin n, f (Z.of_nat (fin_to_nat i))).

(** ** The enumerations *)

Module FACE.
Definition t := Z.
Definition UP : t := 0.
Definition LEFT : t := 1.
Definition FRONT : t := 2.
Definition RIGHT : t := 3.
Definition BACK : t := 4.
Definition DOWN : t := 5.
Definition NONE : t := 6.
End FACE.

Module COLOR.
Inductive t := BLUE | YELLOW | ORANGE | WHITE | RED | GREEN.

Global Instance eq_dec : EqDecision t.
Proof. solve_decision. Defined.
End COLOR.

Module EDGE.
Definition t := Z.
Definition UB : t := 0.
Definition UL : t := 1.
Definition UF : t := 2.
Definition UR : t := 3.
Definition BL : t := 4.
Definition FL : t := 5.
Definition FR : t := 6.
Definition _BR : t := 7.
Definition DB : t := 8.
Definition DL : t := 9.
Definition DF : t := 10.
Definition DR : t := 11.
End EDGE.

Module CORNER.
Definition t := Z.
Definition ULB : t := 0.
Definition ULF : t := 1.
Definition URF : t := 2.
Definition URB : t := 3.
Definition DLB : t := 4.
Definition DLF : t := 5.
Definition DRF : t := 6.
Definition DRB : t := 7.
End CORNER.

Module DIR.
Definition t := Z.
Definition ORIENTED : t := 3.
Definition FLIPPED : t := 4.
Definition ROTATED : t := 2.
Definition ROTATED_TWICE : t := 1.
End DIR.

(** ** The class *)

Record Cubie : Type := mkCubie {
  index : Z;
  orientation : DIR.t
}.

Record CubeModel : Type := mkCubeModel {
  edges : vec Cubie 12;
  corners : vec Cubie 8;
  centers : vec COLOR.t 6;
  lastTurnedFace : FACE.t;
  lastTurnedDir : Z;
  turnedFace : FACE.t;
  turnedDir : Z
}.

Definition set_orientation (o : DIR.t) (q : Cubie) : Cubie :=
  mkCubie (index q) o.

(** [edges[e].orientation = DIR::FLIPPED;] *)
Definition flip_edge (e : EDGE.t) (es : vec Cubie 12) : vec Cubie 12 :=
  vec_alter (set_orientation DIR.FLIPPED) (Z.to_nat e) es.

(** The six [centers[uint8_t(FACE::f)] = COLOR::c;] statements that end both
    constructors, in the order UP, LEFT, FRONT, RIGHT, BACK, DOWN. *)
Definition fixed_centers : vec COLOR.t 6 :=
  arr_init 6 (λ f,
    if f =? FACE.UP then COLOR.GREEN
    else if f =? FACE.LEFT then COLOR.RED
    else if f =? FACE.FRONT then COLOR.WHITE
    else if f =? FACE.RIGHT then COLOR.ORANGE
    else if f =? FACE.BACK then COLOR.YELLOW
    else COLOR.BLUE).

(** [CubeModel::CubeModel()] *)
Definition CubeModel_default : CubeModel :=
  {| edges := arr_init 12 (λ i, mkCubie i DIR.ORIENTED);
     corners := arr_init 8 (λ i, mkCubie i DIR.ORIENTED);
     centers := fixed_centers;
     lastTurnedFace := FACE.NONE;
     lastTurnedDir := 0;
     turnedFace := FACE.NONE;
     turnedDir := 0 |}.

(** A frame is the 36-byte buffer the constructor's parameter points to
    ([CubeModel(const uint8_t *data); // 36 bytes cubeData]). *)
Definition frame : Type := vec byte 36.

(** [data[i]], for the offsets 0..35 the constructor reads. *)
Definition rd (data : frame) (i : Z) : Z :=
  match arr_lookup data i with
  | Some b => Z_of_byte b
  | None => 0
  end.

(** [CubeModel::CubeModel(const uint8_t *data)] *)
Definition CubeModel_of_data (data : frame) : CubeModel :=
  let corners0 :=
    arr_init 8 (λ i, mkCubie (u8 (rd data i - 1)) (rd data (i + 8))) in
  let edges0 :=
    arr_init 12 (λ i, mkCubie (u8 (rd data (i + 16) - 1)) DIR.ORIENTED) in
  let edges1 :=
    if (rd data 28 =? 8) && (rd data 29 =? 9) && (rd data 30 =? 8)
       || (rd data 28 =? 0x0A) && (rd data 29 =? 0x0F) && (rd data 30 =? 0x0A)
    then flip_edge EDGE.DB (flip_edge EDGE._BR
           (flip_edge EDGE.BL (flip_edge EDGE.UB edges0)))
    else edges0 in
  let edges2 :=
    if (rd data 28 =? 2) && (rd data 29 =? 6) && (rd data 30 =? 2)
       || (rd data 28 =? 0x0A) && (rd data 29 =? 0x0F) && (rd data 30 =? 0x0A)
    then flip_edge EDGE.DF (flip_edge EDGE.FR
           (flip_edge EDGE.FL (flip_edge EDGE.UF edges1)))
    else edges1 in
  {| edges := edges2;
     corners := corners0;
     centers := fixed_centers;
     turnedFace := rd data 32;
     turnedDir := if rd data 33 =? 1 then 0 else 1;
     lastTurnedFace := rd data 34;
     lastTurnedDir := if rd data 35 =? 1 then 0 else 1 |}.

(** [CubeModel::isSolved]: the loop body at [i], with [n] iterations left
    (the loop runs [i] from 0 while [i < 12]). *)
Fixpoint isSolved_loop (c : CubeModel) (n : nat) (i : Z) : result bool :=
  match n with
  | O => Ok true
  | S n' =>
      e ← arr_idx (edges c) i;
      if negb (index e =? i) || negb (orientation e =? DIR.ORIENTED)
      then Ok false
      else if i <? 6 then
        k ← arr_idx (corners c) i;
        if negb (index k =? i) || negb (orientation k =? DIR.ORIENTED)
        then Ok false
        else isSolved_loop c n' (i + 1)
      else isSolved_loop c n' (i + 1)
  end.

Definition isSolved (c : CubeModel) : result bool := isSolved_loop c 12 0.

(** [swap(result[0], result[1])] on a two-cell array. *)
Definition swap01 {A} (r : vec A 2) : vec A 2 :=
  match arr_lookup r 0, arr_lookup r 1 with
  | Some x, Some y => arr_set (arr_set r 0 y) 1 x
  | _, _ => r
  end.

(** [CubeModel::getEdgeColors] *)
Definition getEdgeColors (c : CubeModel) (edge : EDGE.t)
  : result (vec (option COLOR.t) 2) :=
  edge_cubie ← arr_at (edges c) edge;
  let result0 : vec (option COLOR.t) 2 := vreplicate 2 None in
  let assign (a b : COLOR.t) := arr_set (arr_set result0 0 (Some a)) 1 (Some b) in
  let sel := index edge_cubie in
  let result1 :=
    if sel =? EDGE.UB then assign COLOR.GREEN COLOR.YELLOW
    else if sel =? EDGE.UL then assign COLOR.GREEN COLOR.RED
    else if sel =? EDGE.UF then assign COLOR.GREEN COLOR.WHITE
    else if sel =? EDGE.UR then assign COLOR.GREEN COLOR.ORANGE
    else if sel =? EDGE.BL then assign COLOR.YELLOW COLOR.RED
    else if sel =? EDGE.FL then assign COLOR.WHITE COLOR.RED
    else if sel =? EDGE.FR then assign COLOR.WHITE COLOR.ORANGE
    else if sel =? EDGE._BR then assign COLOR.YELLOW COLOR.ORANGE
    else if sel =? EDGE.DB then assign COLOR.BLUE COLOR.YELLOW
    else if sel =? EDGE.DL then assign COLOR.BLUE COLOR.RED
    else if sel =? EDGE.DF then assign COLOR.BLUE COLOR.WHITE
    else if sel =? EDGE.DR then assign COLOR.BLUE COLOR.ORANGE
    else result0 in
  Ok (if orientation edge_cubie =? DIR.FLIPPED then swap01 result1 else result1).

(** The first half of [CubeModel::getCornerColors]: the three offsets
    [(i0, i1, i2)] the colours are then written to. *)
Definition corner_offsets (c : CubeModel) (corner_cubie : Cubie)
    (corner : CORNER.t) : result (Z * Z * Z) :=
  let odd := (index corner_cubie + corner) mod 2 =? 1 in
  if orientation corner_cubie =? DIR.ORIENTED then
    let '(i0, i1, i2) := (0, 1, 2) in
    Ok (if odd then (i0, i2, i1) else (i0, i1, i2))
  else if orientation corner_cubie =? DIR.ROTATED then
    let '(i0, i1, i2) := (2, 0, 1) in
    Ok (if odd then (i2, i1, i0) else (i0, i1, i2))
  else
    let '(i0, i1, i2) := (1, 2, 0) in
    if odd then Ok (i1, i0, i2)
    else
      solved ← isSolved c;
      Ok (if negb solved then (i1, i0, i2) else (i0, i1, i2)).

(** [CubeModel::getCornerColors] *)
Definition getCornerColors (c : CubeModel) (corner : CORNER.t)
  : result (vec (option COLOR.t) 3) :=
  corner_cubie ← arr_at (corners c) corner;
  '(i0, i1, i2) ← corner_offsets c corner_cubie corner;
  let result0 : vec (option COLOR.t) 3 := vreplicate 3 None in
  let assign (a b d : COLOR.t) :=
    arr_set (arr_set (arr_set result0 i0 (Some a)) i1 (Some b)) i2 (Some d) in
  let sel := index corner_cubie in
  Ok (if sel =? CORNER.ULB then assign COLOR.GREEN COLOR.RED COLOR.YELLOW
      else if sel =? CORNER.ULF then assign COLOR.GREEN COLOR.RED COLOR.WHITE
      else if sel =? CORNER.URF then assign COLOR.GREEN COLOR.ORANGE COLOR.WHITE
      else if sel =? CORNER.URB then assign COLOR.GREEN COLOR.ORANGE COLOR.YELLOW
      else if sel =? CORNER.DLB then assign COLOR.BLUE COLOR.RED COLOR.YELLOW
      else if sel =? CORNER.DLF then assign COLOR.BLUE COLOR.RED COLOR.WHITE
      else if sel =? CORNER.DRF then assign COLOR.BLUE COLOR.ORANGE COLOR.WHITE
      else if sel =? CORNER.DRB then assign COLOR.BLUE COLOR.ORANGE COLOR.YELLOW
      else result0).

(** [f(...)[k]]: cell [k] of the array a call returned, read as a colour. *)
Definition cell {n} (r : result (vec (option COLOR.t) n)) (k : Z)
  : result COLOR.t :=
  a ← r;
  match arr_lookup a k with
  | Some (Some x) => Ok x
  | _ => Undefined
  end.

(** [CubeModel::getColor]; [row] and [col] are 0-indexed from the top-left
    cell. *)
Definition getColor (c : CubeModel) (face : FACE.t) (row col : Z)
  : result COLOR.t :=
  if (row =? 1) && (col =? 1) then arr_idx (centers c) face
  else if face =? FACE.UP then
    if row =? 0 then
      if col =? 0 then cell (getCornerColors c CORNER.ULB) 0
      else if col =? 1 then cell (getEdgeColors c EDGE.UB) 0
      else cell (getCornerColors c CORNER.URB) 0
    else if row =? 1 then
      if col =? 0 then cell (getEdgeColors c EDGE.UL) 0
      else cell (getEdgeColors c EDGE.UR) 0
    else
      if col =? 0 then cell (getCornerColors c CORNER.ULF) 0
      else if col =? 1 then cell (getEdgeColors c EDGE.UF) 0
      else cell (getCornerColors c CORNER.URF) 0
  else if face =? FACE.LEFT then
    if row =? 0 then
      if col =? 0 then cell (getCornerColors c CORNER.ULB) 1
      else if col =? 1 then cell (getEdgeColors c EDGE.UL) 1
      else cell (getCornerColors c CORNER.ULF) 1
    else if row =? 1 then
      if col =? 0 then cell (getEdgeColors c EDGE.BL) 1
      else cell (getEdgeColors c EDGE.FL) 1
    else
      if col =? 0 then cell (getCornerColors c CORNER.DLB) 1
      else if col =? 1 then cell (getEdgeColors c EDGE.DL) 1
      else cell (getCornerColors c CORNER.DLF) 1
  else if face =? FACE.FRONT then
    if row =? 0 then
      if col =? 0 then cell (getCornerColors c CORNER.ULF) 2
      else if col =? 1 then cell (getEdgeColors c EDGE.UF) 1
      else cell (getCornerColors c CORNER.URF) 2
    else if row =? 1 then
      if col =? 0 then cell (getEdgeColors c EDGE.FL) 0
      else cell (getEdgeColors c EDGE.FR) 0
    else
      if col =? 0 then cell (getCornerColors c CORNER.DLF) 2
      else if col =? 1 then cell (getEdgeColors c EDGE.DF) 1
      else cell (getCornerColors c CORNER.DRF) 2
  else if face =? FACE.RIGHT then
    if row =? 0 then
      if col =? 0 then cell (getCornerColors c CORNER.URF) 1
      else if col =? 1 then cell (getEdgeColors c EDGE.UR) 1
      else cell (getCornerColors c CORNER.URF) 1
    else if row =? 1 then
      if col =? 0 then cell (getEdgeColors c EDGE.FR) 1
      else cell (getEdgeColors c EDGE._BR) 1
    else
      if col =? 0 then cell (getCornerColors c CORNER.DRF) 1
      else if col =? 1 then cell (getEdgeColors c EDGE.DR) 1
      else cell (getCornerColors c CORNER.DRB) 1
  else if face =? FACE.BACK then
    if row =? 0 then
      if col =? 0 then cell (getCornerColors c CORNER.URB) 2
      else if col =? 1 then cell (getEdgeColors c EDGE.UB) 1
      else cell (getCornerColors c CORNER.ULB) 2
    else if row =? 1 then
      if col =? 0 then cell (getEdgeColors c EDGE._BR) 0
      else cell (getEdgeColors c EDGE.BL) 0
    else
      if col =? 0 then cell (getCornerColors c CORNER.DRB) 2
      else if col =? 1 then cell (getEdgeColors c EDGE.DB) 1
      else cell (getCornerColors c CORNER.DLB) 2
  else if face =? FACE.DOWN then
    if row =? 0 then
      if col =? 0 then cell (getCornerColors c CORNER.DLF) 0
      else if col =? 1 then cell (getEdgeColors c EDGE.DF) 0
      else cell (getCornerColors c CORNER.DRF) 0
    else if row =? 1 then
      if col =? 0 then cell (getEdgeColors c EDGE.DL) 0
      else cell (getEdgeColors c EDGE.DR) 0
    else
      if col =? 0 then cell (getCornerColors c CORNER.DLB) 0
      else if col =? 1 then cell (getEdgeColors c EDGE.DB) 0
      else cell (getCornerColors c CORNER.DRB) 0
  else Ok COLOR.WHITE.

(** [CubeModel::getFaceColors]: rows 0..2, and in each row columns 0..2. *)
Definition getFaceColors (c : CubeModel) (face : FACE.t)
  : result (list (list COLOR.t)) :=
  mapM (λ row, mapM (λ col, getColor c face row col) [0; 1; 2]) [0; 1; 2].

(** [CubeModel::operator==]: the loop body at [i], with [n] iterations
    left. *)
Fixpoint equal_loop (c other : CubeModel) (n : nat) (i : Z) : result bool :=
  match n with
  | O => Ok true
  | S n' =>
      e ← arr_idx (edges c) i;
      e' ← arr_idx (edges other) i;
      if negb (index e =? index e')
         || negb (orientation e =? orientation e')
      then Ok false
      else
        corners_differ ←
          (if i <? 8 then
             k ← arr_idx (corners c) i;
             k' ← arr_idx (corners other) i;
             Ok (negb (index k =? index k')
                 || negb (orientation k =? orientation k'))
           else Ok false);
        if corners_differ : bool then Ok false
        else
          centers_differ ←
            (if i <? 6 then
               x ← arr_idx (centers c) i;
               x' ← arr_idx (centers other) i;
               Ok (negb (bool_decide (x = x')))
             else Ok false);
          if centers_differ : bool then Ok false
          else equal_loop c other n' (i + 1)
  end.

Definition equal (c other : CubeModel) : result bool := equal_loop c other 12 0.

(** [CubeModel::operator!=] *)
Definition not_equal (c other : CubeModel) : result bool :=
  b ← equal c other; Ok (negb b).

(** ** Reference data *)

(** The frame the header documents as the solved cube:
    corners [1 2 3 4 5 6 7 8], orientations [3 3 3 3 3 3 3 3],
    edges [1 2 3 4 5 6 7 8 9 A B C], then [0 0 0 0] and [5 3 5 1]. *)
Definition solved_frame : frame :=
  [# x01; x02; x03; x04; x05; x06; x07; x08;
     x03; x03; x03; x03; x03; x03; x03; x03;
     x01; x02; x03; x04; x05; x06; x07; x08; x09; x0a; x0b; x0c;
     x00; x00; x00; x00;
     x05; x03; x05; x01 ].

(** ** Specification-side vocabulary *)

(** Slot [i] of [a] holds the piece that belongs there, untwisted. *)
Definition in_place {n} (a : vec Cubie n) (i : Z) : Prop :=
  ∃ q, arr_lookup a i = Some q ∧ index q = i ∧ orientation q = DIR.ORIENTED.

(** What [isSolved] looks at: all twelve edge slots, and the corner slots
    0..5. *)
Definition checked_range_solved (c : CubeModel) : Prop :=
  (∀ i, 0 <= i < 12 → in_place (edges c) i) ∧
  (∀ i, 0 <= i < 6 → in_place (corners c) i).

(** The two states agree on everything the loop body compares at [i]. *)
Definition slot_agree (a b : CubeModel) (i : Z) : Prop :=
  arr_lookup (edges a) i = arr_lookup (edges b) i ∧
  (i < 8 → arr_lookup (corners a) i = arr_lookup (corners b) i) ∧
  (i < 6 → arr_lookup (centers a) i = arr_lookup (centers b) i).

(** The three bytes at offsets 28..30. *)
Definition flip_triple (data : frame) : Z * Z * Z :=
  (rd data 28, rd data 29, rd data 30).

(** The condition of the first [if] of the constructor. *)
Definition back_flag (data : frame) : bool :=
  (rd data 28 =? 8) && (rd data 29 =? 9) && (rd data 30 =? 8)
  || (rd data 28 =? 0x0A) && (rd data 29 =? 0x0F) && (rd data 30 =? 0x0A).

(** The condition of the second [if]. *)
Definition front_flag (data : frame) : bool :=
  (rd data 28 =? 2) && (rd data 29 =? 6) && (rd data 30 =? 2)
  || (rd data 28 =? 0x0A) && (rd data 29 =? 0x0F) && (rd data 30 =? 0x0A).

Definition back_axis_edges : list EDGE.t :=
  [EDGE.UB; EDGE.BL; EDGE._BR; EDGE.DB].

Definition front_axis_edges : list EDGE.t :=
  [EDGE.UF; EDGE.FL; EDGE.FR; EDGE.DF].

(** The orientation stored in edge slot [S]. *)
Definition edge_orientation (c : CubeModel) (S : EDGE.t) : option DIR.t :=
  orientation <$> arr_lookup (edges c) S.

(** The colour pair of each of the twelve edge identities UB, UL, UF, UR,
    BL, FL, FR, BR, DB, DL, DF, DR, in its canonical order. *)
Definition edge_pairs : vec (COLOR.t * COLOR.t) 12 :=
  [# (COLOR.GREEN, COLOR.YELLOW); (COLOR.GREEN, COLOR.RED);
     (COLOR.GREEN, COLOR.WHITE); (COLOR.GREEN, COLOR.ORANGE);
     (COLOR.YELLOW, COLOR.RED); (COLOR.WHITE, COLOR.RED);
     (COLOR.WHITE, COLOR.ORANGE); (COLOR.YELLOW, COLOR.ORANGE);
     (COLOR.BLUE, COLOR.YELLOW); (COLOR.BLUE, COLOR.RED);
     (COLOR.BLUE, COLOR.WHITE); (COLOR.BLUE, COLOR.ORANGE) ].

(** The colour triple of each of the eight corner identities ULB, ULF, URF,
    URB, DLB, DLF, DRF, DRB (GRY GRW GOW GOY BRY BRW BOW BOY). *)
Definition corner_triples : vec (COLOR.t * COLOR.t * COLOR.t) 8 :=
  [# (COLOR.GREEN, COLOR.RED, COLOR.YELLOW);
     (COLOR.GREEN, COLOR.RED, COLOR.WHITE);
     (COLOR.GREEN, COLOR.ORANGE, COLOR.WHITE);
     (COLOR.GREEN, COLOR.ORANGE, COLOR.YELLOW);
     (COLOR.BLUE, COLOR.RED, COLOR.YELLOW);
     (COLOR.BLUE, COLOR.RED, COLOR.WHITE);
     (COLOR.BLUE, COLOR.ORANGE, COLOR.WHITE);
     (COLOR.BLUE, COLOR.ORANGE, COLOR.YELLOW) ].

(** The array that holds colour [a] at offset [i0], [b] at [i1] and [d] at
    [i2]. *)
Definition holds_at (r : vec (option COLOR.t) 3) (offs : Z * Z * Z)
    (cols : COLOR.t * COLOR.t * COLOR.t) : Prop :=
  let '(i0, i1, i2) := offs in
  let '(a, b, d) := cols in
  arr_lookup r i0 = Some (Some a) ∧
  arr_lookup r i1 = Some (Some b) ∧
  arr_lookup r i2 = Some (Some d).

(** The grid whose nine cells are [col]. *)
Definition uniform_grid (col : COLOR.t) : list (list COLOR.t) :=
  replicate 3 (replicate 3 col).

(** The six faces of the cube, that is every [FACE] but [NONE]. *)
Definition real_faces : list FACE.t :=
  [FACE.UP; FACE.LEFT; FACE.FRONT; FACE.RIGHT; FACE.BACK; FACE.DOWN].

(** The face whose centre the constructors give colour [col]. *)
Definition face_of_color (col : COLOR.t) : FACE.t :=
  match col with
  | COLOR.GREEN => FACE.UP
  | COLOR.RED => FACE.LEFT
  | COLOR.WHITE => FACE.FRONT
  | COLOR.ORANGE => FACE.RIGHT
  | COLOR.YELLOW => FACE.BACK
  | COLOR.BLUE => FACE.DOWN
  end.

(** The device's face index as the header documents it:
    [1 - Blue, 2 - Yellow, 3 - Orange, 4 - White, 5 - Red, 6 - Green]. *)
Definition device_face_color (k : Z) : option COLOR.t :=
  if k =? 1 then Some COLOR.BLUE
  else if k =? 2 then Some COLOR.YELLOW
  else if k =? 3 then Some COLOR.ORANGE
  else if k =? 4 then Some COLOR.WHITE
  else if k =? 5 then Some COLOR.RED
  else if k =? 6 then Some COLOR.GREEN
  else None.

(** The error kinds a decoder could report.  The class has none of them:
    the constructor contains no [throw], returns no status and sets no
    validity flag. *)
Inductive DecodeError : Type :=
  | InvalidFrameLength
  | InvalidPieceIndex
  | InvalidOrientation
  | InvalidFlipPattern
  | StateInvariantViolation.

(** The constructor seen as a decoder: it builds an object from every
    frame. *)
Definition decode (data : frame) : DecodeError + CubeModel :=
  inr (CubeModel_of_data data).

(** The frame [data] with the byte at offset [i] replaced by [b]. *)
Definition poke (i : nat) (b : byte) (data : frame) : frame :=
  vec_alter (λ _, b) i data.

(** The solved frame with the bytes [a b d] at offsets 28..30. *)
Definition frame_with_triple (a b d : byte) : frame :=
  poke 30 d (poke 29 b (poke 28 a solved_frame)).

(** The solved frame with the orientation byte of corner slot DRF set to
    1 (ROTATED_TWICE): [isSolved] does not look at that slot. *)
Definition frame_DRF_twice : frame := poke 14 x01 solved_frame.

(** The solved frame with the orientation byte of corner slot ULB set to
    1 (ROTATED_TWICE). *)
Definition frame_ULB_twice : frame := poke 8 x01 solved_frame.

(** The frame with pattern (8,9,8) in which edge slot UB holds the piece
    of identity DF (byte 0x0B at offset 16). *)
Definition frame_DF_in_UB : frame :=
  poke 16 x0b (frame_with_triple x08 x09 x08).

(** ** main.cpp: the notification callback and the printing helpers *)

(** The narrowing store of an [int] into a [uint8_t] cell. *)
Definition byte_of_Z (z : Z) : byte :=
  match Byte.of_N (Z.to_N (u8 z)) with
  | Some b => b
  | None => x00
  end.

(** [const static int AES_KEY[36]] *)
Definition AES_KEY : vec Z 36 :=
  [# 176; 81; 104; 224; 86; 137; 237; 119; 38; 26; 193; 161;
     210; 126; 150; 81; 93; 13; 236; 249; 89; 235; 88; 24;
     113; 81; 214; 131; 130; 199; 2; 169; 39; 165; 171; 41 ].

(** [getHalfByte(pData, i)]; [pData] points to a buffer of [n] bytes, [/]
    and [%] on [int] truncate towards zero. *)
Definition getHalfByte {n} (pData : vec byte n) (i : Z) : result Z :=
  if Z.rem i 2 =? 1 then
    b ← arr_idx pData (Z.lor (Z.quot i 2) 0);
    Ok (u8 (Z.rem (Z_of_byte b) 16))
  else
    b ← arr_idx pData (Z.lor (Z.quot i 2) 0);
    Ok (u8 (Z.lor 0 (Z.quot (Z_of_byte b) 16))).

(** [for(int i = 0; i < 20; i++) pData[i] += (AES_KEY[offset1+i]+AES_KEY[offset2+i]);]
    at [i], with [k] iterations left. *)
Fixpoint decrypt_loop {n} (offset1 offset2 : Z) (k : nat) (i : Z)
    (pData : vec byte n) : result (vec byte n) :=
  match k with
  | O => Ok pData
  | S k' =>
      k1 ← arr_idx AES_KEY (offset1 + i);
      k2 ← arr_idx AES_KEY (offset2 + i);
      b ← arr_idx pData i;
      decrypt_loop offset1 offset2 k' (i + 1)
        (arr_set pData i (byte_of_Z (Z_of_byte b + (k1 + k2))))
  end.

(** [for(int i = 0; i < 36; i++) colorData[i] = getHalfByte(pData, i);]
    at [i], with [k] iterations left. *)
Fixpoint colorData_loop {n} (pData : vec byte n) (k : nat) (i : Z)
    (colorData : frame) : result frame :=
  match k with
  | O => Ok colorData
  | S k' =>
      h ← getHalfByte pData i;
      colorData_loop pData k' (i + 1) (arr_set colorData i (byte_of_Z h))
  end.

(** The part of [onDataNotifyCallback] up to the constructor call: the
    buffer [colorData] it hands to [CubeModel(colorData)].  The length test
    at the top of the callback is inside [#if DEBUG_SERIAL_OUTPUT], which is
    [false]. *)
Definition callback_colorData {n} (pData : vec byte n) : result frame :=
  b18 ← arr_idx pData 18;
  let isEncrypted := Z_of_byte b18 =? 0xA7 in
  pData' ←
    (if isEncrypted then
       offset1 ← getHalfByte pData 38;
       offset2 ← getHalfByte pData 39;
       decrypt_loop offset1 offset2 20 0 pData
     else Ok pData);
  colorData_loop pData' 36 0 (vreplicate 36 x00).

(** What is written to [Serial]. *)
Inductive serial_out : Type :=
  | out_str (s : string)   (* Serial.print of a string or a character *)
  | out_u8 (z : Z)         (* Serial.print of a uint8_t *)
  | out_newline.           (* the line end of Serial.println *)

(** [onDataNotifyCallback] with [DEBUG_SERIAL_OUTPUT] false: the output
    written to [Serial]. *)
Definition onDataNotifyCallback {n} (pData : vec byte n)
  : result (list serial_out) :=
  colorData ← callback_colorData pData;
  let newCube := CubeModel_of_data colorData in
  Ok [out_u8 (u8 (turnedFace newCube)); out_str " ";
      out_u8 (turnedDir newCube); out_newline].

(** [colorToString]; the [default] label is for values that are no
    enumerator, which [COLOR.t] does not have. *)
Definition colorToString (color : COLOR.t) : string :=
  match color with
  | COLOR.WHITE => "W"
  | COLOR.YELLOW => "Y"
  | COLOR.GREEN => "G"
  | COLOR.BLUE => "B"
  | COLOR.RED => "R"
  | COLOR.ORANGE => "O"
  end.





(** A notification of the cube in the clear (byte 18 is not 0xA7): the
    36 half bytes of the solved frame, then two more bytes. *)
Definition solved_packet : vec byte 20 :=
  [# x12; x34; x56; x78; x33; x33; x33; x33;
     x12; x34; x56; x78; x9a; xbc; x00; x00;
     x53; x51; x00; x00 ].

(** How many edge slots are FLIPPED. *)
Definition flipped_edges (c : CubeModel) : nat :=
  length (filter (λ q, orientation q = DIR.FLIPPED) (vec_to_list (edges c))).

(** The stored indices are piece identities: 0..11 in the edge slots,
    0..7 in the corner slots. *)
Definition valid_pieces (c : CubeModel) : Prop :=
  (∀ S q, arr_lookup (edges c) S = Some q → 0 <= index q < 12) ∧
  (∀ S q, arr_lookup (corners c) S = Some q → 0 <= index q < 8).

(** The solved frame with face index 6 in the current-move byte. *)
Definition frame_other_move : frame := poke 32 x06 solved_frame.

(** The solved frame with 0 where the identity of the piece in edge slot UB
    belongs (offset 16). *)
Definition frame_zero_edge : frame := poke 16 x00 solved_frame.

(** Half byte [j] of the clear byte [B]. *)
Definition half_of (B j : Z) : Z :=
  if j mod 2 =? 1 then B mod 16 else B / 16.

(** [solved_packet] with the encryption mark 0xA7 in byte 18. *)
Definition marked_packet : vec byte 20 := arr_set solved_packet 18 xa7.

(** A notification cut after 19 bytes, with the encryption mark. *)
Definition short_packet : vec byte 19 :=
  [# x12; x34; x56; x78; x33; x33; x33; x33;
     x12; x34; x56; x78; x9a; xbc; x00; x00;
     x53; x51; xa7 ].



(** * Properties *)

(** ** Arrays *)

Lemma arr_lookup_in_range {A n} (a : vec A n) (i : Z) :
  0 <= i < Z.of_nat n → ∃ x, arr_lookup a i = Some x.
Proof.
  intros [Hlo Hhi]. unfold arr_lookup.
  destruct (decide (0 <= i)) as [_|]; [|lia].
  apply lookup_lt_is_Some_2. rewrite length_vec_to_list. lia.
Qed.

Lemma arr_lookup_inv {A n} (a : vec A n) (i : Z) (x : A) :
  arr_lookup a i = Some x → 0 <= i < Z.of_nat n.
Proof.
  unfold arr_lookup. destruct (decide (0 <= i)); [|discriminate].
  intros H%lookup_lt_Some. rewrite length_vec_to_list in H. lia.
Qed.

Lemma arr_idx_in_range {A n} (a : vec A n) (i : Z) :
  0 <= i < Z.of_nat n → ∃ x, arr_lookup a i = Some x ∧ arr_idx a i = Ok x.
Proof.
  intros H. destruct (arr_lookup_in_range a i H) as [x Hx].
  exists x. unfold arr_idx. now rewrite Hx.
Qed.

Lemma arr_at_in_range {A n} (a : vec A n) (i : Z) :
  0 <= i < Z.of_nat n → ∃ x, arr_lookup a i = Some x ∧ arr_at a i = Ok x.
Proof.
  intros H. destruct (arr_lookup_in_range a i H) as [x Hx].
  exists x. unfold arr_at. now rewrite Hx.
Qed.

Lemma arr_lookup_ext {A n} (a b : vec A n) :
  (∀ i, 0 <= i < Z.of_nat n → arr_lookup a i = arr_lookup b i) → a = b.
Proof.
  intros H. apply vec_to_list_inj2, list_eq. intros k.
  destruct (decide (k < n)%nat) as [Hk|Hk].
  - specialize (H (Z.of_nat k)). unfold arr_lookup in H.
    destruct (decide (0 <= Z.of_nat k)); [|lia].
    rewrite Nat2Z.id in H. apply H. lia.
  - rewrite !lookup_ge_None_2; [done| |]; rewrite length_vec_to_list; lia.
Qed.

Lemma cubie_eta (p q : Cubie) :
  index p = index q → orientation p = orientation q → p = q.
Proof. destruct p, q; simpl; congruence. Qed.

(** ** isSolved *)

Lemma isSolved_loop_spec (c : CubeModel) (n : nat) :
  ∀ i, 0 <= i → i + Z.of_nat n <= 12 →
  ∃ b, isSolved_loop c n i = Ok b ∧
       (b = true ↔
        (∀ j, i <= j < i + Z.of_nat n → in_place (edges c) j) ∧
        (∀ j, i <= j < i + Z.of_nat n → j < 6 → in_place (corners c) j)).
Proof.
  induction n as [|n IH]; intros i Hi Hn.
  - exists true. split; [reflexivity|]. split; [|done].
    intros _. split; intros; lia.
  - destruct (arr_idx_in_range (edges c) i) as (e & He & Hide); [simpl; lia|].
    cbn [isSolved_loop]. rewrite Hide. cbn [mbind result_bind].
    destruct (index e =? i) eqn:Hei; cbn [negb orb].
    2:{ exists false. split; [reflexivity|]. split; [discriminate|].
        intros [Hall _]. destruct (Hall i) as (q & Hq & Hqi & _); [lia|].
        rewrite He in Hq. injection Hq as <-. apply Z.eqb_neq in Hei. done. }
    destruct (orientation e =? DIR.ORIENTED) eqn:Heo; cbn [negb].
    2:{ exists false. split; [reflexivity|]. split; [discriminate|].
        intros [Hall _]. destruct (Hall i) as (q & Hq & _ & Hqo); [lia|].
        rewrite He in Hq. injection Hq as <-. apply Z.eqb_neq in Heo. done. }
    apply Z.eqb_eq in Hei, Heo.
    assert (Hedge : in_place (edges c) i) by (exists e; done).
    destruct (IH (i + 1)) as (b & Hb & Hiff); [lia|lia|].
    destruct (i <? 6) eqn:Hi6.
    + apply Z.ltb_lt in Hi6.
      destruct (arr_idx_in_range (corners c) i) as (k & Hk & Hidk);
        [simpl; lia|].
      rewrite Hidk. cbn [mbind result_bind].
      destruct (index k =? i) eqn:Hki; cbn [negb orb].
      2:{ exists false. split; [reflexivity|]. split; [discriminate|].
          intros [_ Hall]. destruct (Hall i) as (q & Hq & Hqi & _); [lia|lia|].
          rewrite Hk in Hq. injection Hq as <-. apply Z.eqb_neq in Hki. done. }
      destruct (orientation k =? DIR.ORIENTED) eqn:Hko; cbn [negb].
      2:{ exists false. split; [reflexivity|]. split; [discriminate|].
          intros [_ Hall]. destruct (Hall i) as (q & Hq & _ & Hqo); [lia|lia|].
          rewrite Hk in Hq. injection Hq as <-. apply Z.eqb_neq in Hko. done. }
      apply Z.eqb_eq in Hki, Hko.
      exists b. split; [exact Hb|]. rewrite Hiff. split.
      * intros [HE HC]. split; intros j Hj.
        -- destruct (decide (j = i)) as [->|]; [done|]. apply HE. lia.
        -- intros Hj6. destruct (decide (j = i)) as [->|].
           ++ exists k. done.
           ++ apply HC; lia.
      * intros [HE HC]. split; intros j Hj; [apply HE|apply HC]; lia.
    + apply Z.ltb_ge in Hi6.
      exists b. split; [exact Hb|]. rewrite Hiff. split.
      * intros [HE HC]. split; intros j Hj.
        -- destruct (decide (j = i)) as [->|]; [done|]. apply HE. lia.
        -- intros Hj6. lia.
      * intros [HE HC]. split; intros j Hj; [apply HE|apply HC]; lia.
Qed.

Lemma isSolved_total (c : CubeModel) : ∃ b, isSolved c = Ok b.
Proof.
  destruct (isSolved_loop_spec c 12 0) as (b & Hb & _); [lia|simpl; lia|].
  exists b. exact Hb.
Qed.

Lemma isSolved_true_iff (c : CubeModel) :
  isSolved c = Ok true ↔ checked_range_solved c.
Proof.
  destruct (isSolved_loop_spec c 12 0) as (b & Hb & Hiff); [lia|simpl; lia|].
  unfold isSolved, checked_range_solved. rewrite Hb. split.
  - intros [= ->]. destruct Hiff as [Hiff _].
    destruct (Hiff eq_refl) as [HE HC].
    split; intros i Hi; [apply HE|apply HC]; simpl; lia.
  - intros [HE HC]. f_equal. apply Hiff.
    split; intros j Hj; [apply HE|intros; apply HC]; simpl in Hj; lia.
Qed.

Lemma isSolved_false_iff (c : CubeModel) :
  isSolved c = Ok false ↔ ¬ checked_range_solved c.
Proof.
  destruct (isSolved_total c) as [b Hb].
  rewrite <- isSolved_true_iff, Hb. destruct b; split; done.
Qed.

(** Corner slots 6 and 7 are outside the loop's [i < 6] test: the state
    decoded from [frame_DRF_twice] has slot DRF twisted and is reported
    solved. *)
Example isSolved_skips_corner_DRF :
  let c := CubeModel_of_data frame_DRF_twice in
  arr_lookup (corners c) CORNER.DRF = Some (mkCubie 6 DIR.ROTATED_TWICE) ∧
  isSolved c = Ok true.
Proof. split; vm_compute; reflexivity. Qed.

(** ** operator== *)

Lemma cubie_test (p q : Cubie) :
  negb (index p =? index q) || negb (orientation p =? orientation q) = false
  ↔ p = q.
Proof.
  rewrite orb_false_iff, !negb_false_iff, !Z.eqb_eq. split.
  - intros [? ?]. by apply cubie_eta.
  - by intros ->.
Qed.

Lemma equal_step (a b : CubeModel) (n : nat) (i : Z) :
  0 <= i < 12 →
  (slot_agree a b i ∧ equal_loop a b (S n) i = equal_loop a b n (i + 1)) ∨
  (¬ slot_agree a b i ∧ equal_loop a b (S n) i = Ok false).
Proof.
  intros Hi. cbn [equal_loop].
  destruct (arr_idx_in_range (edges a) i) as (e & He & ->); [simpl; lia|].
  destruct (arr_idx_in_range (edges b) i) as (e' & He' & ->); [simpl; lia|].
  cbn [mbind result_bind].
  destruct (negb (index e =? index e') || _) eqn:Hedge.
  { right. split; [|reflexivity]. intros (Heq & _).
    rewrite He, He' in Heq. injection Heq as Heq.
    apply cubie_test in Heq. congruence. }
  apply cubie_test in Hedge as ->.
  destruct (i <? 8) eqn:Hi8; [apply Z.ltb_lt in Hi8|apply Z.ltb_ge in Hi8].
  - destruct (arr_idx_in_range (corners a) i) as (k & Hk & ->); [simpl; lia|].
    destruct (arr_idx_in_range (corners b) i) as (k' & Hk' & ->); [simpl; lia|].
    cbn [mbind result_bind].
    destruct (negb (index k =? index k') || _) eqn:Hcorner.
    { right. split; [|reflexivity]. intros (_ & Heq & _).
      specialize (Heq Hi8). rewrite Hk, Hk' in Heq. injection Heq as Heq.
      apply cubie_test in Heq. congruence. }
    apply cubie_test in Hcorner as ->.
    destruct (i <? 6) eqn:Hi6; [apply Z.ltb_lt in Hi6|apply Z.ltb_ge in Hi6].
    + destruct (arr_idx_in_range (centers a) i) as (x & Hx & ->); [simpl; lia|].
      destruct (arr_idx_in_range (centers b) i) as (x' & Hx' & ->); [simpl; lia|].
      cbn [mbind result_bind].
      destruct (bool_decide (x = x')) eqn:Hcenter; cbn [negb].
      * apply bool_decide_eq_true in Hcenter as ->.
        left. split; [|reflexivity]. unfold slot_agree. rewrite He, He', Hk, Hk', Hx, Hx'. done.
      * apply bool_decide_eq_false in Hcenter.
        right. split; [|reflexivity]. intros (_ & _ & Heq).
        specialize (Heq Hi6). rewrite Hx, Hx' in Heq. congruence.
    + cbn [mbind result_bind]. left. split; [|reflexivity].
      unfold slot_agree. rewrite He, He', Hk, Hk'.
      split; [done|]. split; [done|]. intros; lia.
  - destruct (i <? 6) eqn:Hi6; [apply Z.ltb_lt in Hi6; lia|].
    cbn [mbind result_bind]. left. split; [|reflexivity].
    unfold slot_agree. rewrite He, He'.
    split; [done|]. split; intros; lia.
Qed.

Lemma equal_loop_spec (a b : CubeModel) (n : nat) :
  ∀ i, 0 <= i → i + Z.of_nat n <= 12 →
  ∃ r, equal_loop a b n i = Ok r ∧
       (r = true ↔ ∀ j, i <= j < i + Z.of_nat n → slot_agree a b j).
Proof.
  induction n as [|n IH]; intros i Hi Hn.
  - exists true. split; [reflexivity|]. split; [intros; lia|done].
  - destruct (equal_step a b n i) as [[Hag ->]|[Hdis ->]]; [lia| |].
    + destruct (IH (i + 1)) as (r & Hr & Hiff); [lia|lia|].
      exists r. split; [exact Hr|]. rewrite Hiff. split.
      * intros H j Hj. destruct (decide (j = i)) as [->|]; [done|].
        apply H. lia.
      * intros H j Hj. apply H. lia.
    + exists false. split; [reflexivity|]. split; [discriminate|].
      intros H. destruct Hdis. apply H. lia.
Qed.

Lemma equal_true_iff (a b : CubeModel) :
  equal a b = Ok true ↔
  edges a = edges b ∧ corners a = corners b ∧ centers a = centers b.
Proof.
  destruct (equal_loop_spec a b 12 0) as (r & Hr & Hiff); [lia|simpl; lia|].
  unfold equal. rewrite Hr. split.
  - intros [= ->]. destruct Hiff as [Hiff _]. specialize (Hiff eq_refl).
    repeat split; apply arr_lookup_ext; intros i Hi;
      apply (Hiff i); simpl in *; lia.
  - intros (HE & HC & HX). f_equal. apply Hiff. intros j _.
    unfold slot_agree. rewrite HE, HC, HX. done.
Qed.

Lemma equal_total (a b : CubeModel) : ∃ r, equal a b = Ok r.
Proof.
  destruct (equal_loop_spec a b 12 0) as (r & Hr & _); [lia|simpl; lia|].
  by exists r.
Qed.

(** ** The decoding constructor *)

(** Every offset the constructor reads is a byte of the frame. *)
Lemma rd_in_frame (data : frame) (i : Z) :
  0 <= i < 36 →
  ∃ b, arr_lookup data i = Some b ∧ rd data i = Z_of_byte b ∧
       0 <= rd data i < 256.
Proof.
  intros Hi. destruct (arr_lookup_in_range data i) as [b Hb]; [simpl; lia|].
  exists b. unfold rd. rewrite Hb. split; [done|]. split; [done|].
  unfold Z_of_byte. pose proof (Byte.to_N_bounded b). lia.
Qed.

Lemma arr_init_8 {A} (f : Z → A) :
  arr_init 8 f = [# f 0; f 1; f 2; f 3; f 4; f 5; f 6; f 7].
Proof. reflexivity. Qed.

Lemma arr_init_12 {A} (f : Z → A) :
  arr_init 12 f =
  [# f 0; f 1; f 2; f 3; f 4; f 5; f 6; f 7; f 8; f 9; f 10; f 11].
Proof. reflexivity. Qed.

Lemma slot_cases_12 (S : Z) :
  0 <= S < 12 →
  S = 0 ∨ S = 1 ∨ S = 2 ∨ S = 3 ∨ S = 4 ∨ S = 5 ∨
  S = 6 ∨ S = 7 ∨ S = 8 ∨ S = 9 ∨ S = 10 ∨ S = 11.
Proof. lia. Qed.

Lemma slot_cases_8 (S : Z) :
  0 <= S < 8 →
  S = 0 ∨ S = 1 ∨ S = 2 ∨ S = 3 ∨ S = 4 ∨ S = 5 ∨ S = 6 ∨ S = 7.
Proof. lia. Qed.

Ltac each_slot H :=
  repeat (destruct H as [H|H]; [subst|]); [..|subst].

Lemma decoded_edge_orientation (data : frame) (S : EDGE.t) :
  0 <= S < 12 →
  edge_orientation (CubeModel_of_data data) S =
  Some (if back_flag data && bool_decide (S ∈ back_axis_edges)
           || front_flag data && bool_decide (S ∈ front_axis_edges)
        then DIR.FLIPPED else DIR.ORIENTED).
Proof.
  intros HS. unfold edge_orientation, CubeModel_of_data. cbn [edges].
  change ((rd data 28 =? 8) && _ && _ || _) with (back_flag data).
  change ((rd data 28 =? 2) && _ && _ || _) with (front_flag data).
  rewrite arr_init_12.
  apply slot_cases_12 in HS.
  destruct (back_flag data), (front_flag data); each_slot HS; reflexivity.
Qed.

Lemma flags_of_triple (data : frame) :
  (flip_triple data = (8, 9, 8) →
   back_flag data = true ∧ front_flag data = false) ∧
  (flip_triple data = (2, 6, 2) →
   back_flag data = false ∧ front_flag data = true) ∧
  (flip_triple data = (0x0A, 0x0F, 0x0A) →
   back_flag data = true ∧ front_flag data = true) ∧
  (flip_triple data ≠ (8, 9, 8) → flip_triple data ≠ (2, 6, 2) →
   flip_triple data ≠ (0x0A, 0x0F, 0x0A) →
   back_flag data = false ∧ front_flag data = false).
Proof.
  unfold flip_triple, back_flag, front_flag.
  split; [intros [= -> -> ->]; done|].
  split; [intros [= -> -> ->]; done|].
  split; [intros [= -> -> ->]; done|].
  intros HA HB HC.
  split;
    repeat match goal with
    | |- context [?x =? ?y] =>
        let E := fresh in destruct (Z.eqb_spec x y) as [E|E];
        [rewrite ?E in *|]; cbn [andb orb]
    end; try reflexivity; congruence.
Qed.

(** ** The colour resolver *)

Lemma getEdgeColors_by_identity (c : CubeModel) (S : EDGE.t) (q : Cubie)
    (a b : COLOR.t) :
  arr_lookup (edges c) S = Some q →
  arr_lookup edge_pairs (index q) = Some (a, b) →
  getEdgeColors c S =
  Ok (if orientation q =? DIR.FLIPPED
      then [# Some b; Some a] else [# Some a; Some b]).
Proof.
  intros Hq Hpair. unfold getEdgeColors, arr_at. rewrite Hq.
  cbn [mbind result_bind].
  pose proof (arr_lookup_inv _ _ _ Hpair) as Hrange.
  apply slot_cases_12 in Hrange.
  destruct q as [i o]. cbn [index orientation] in *.
  each_slot Hrange; injection Hpair as <- <-;
    destruct (o =? DIR.FLIPPED); reflexivity.
Qed.

Lemma corner_offsets_twice_even (c : CubeModel) (q : Cubie) (S : CORNER.t)
    (solved : bool) :
  orientation q = DIR.ROTATED_TWICE →
  (index q + S) mod 2 = 0 →
  isSolved c = Ok solved →
  corner_offsets c q S = Ok (if solved then (1, 2, 0) else (2, 1, 0)).
Proof.
  intros Ho Hpar Hs. unfold corner_offsets.
  rewrite Ho, Hpar, Hs. cbn. destruct solved; reflexivity.
Qed.

Lemma getCornerColors_by_offsets (c : CubeModel) (S : CORNER.t) (q : Cubie)
    (offs : Z * Z * Z) (cols : COLOR.t * COLOR.t * COLOR.t) :
  arr_lookup (corners c) S = Some q →
  corner_offsets c q S = Ok offs →
  arr_lookup corner_triples (index q) = Some cols →
  ∃ r, getCornerColors c S = Ok r ∧ holds_at r offs cols.
Proof.
  intros Hq Hoffs Hcols. unfold getCornerColors, arr_at. rewrite Hq.
  cbn [mbind result_bind]. rewrite Hoffs. cbn [mbind result_bind].
  assert (Hperm : offs ∈ [(0, 1, 2); (0, 2, 1); (2, 0, 1); (1, 0, 2);
                           (1, 2, 0); (2, 1, 0)]).
  { revert Hoffs. unfold corner_offsets.
    destruct (isSolved_total c) as [b ->]. cbn [mbind result_bind].
    repeat match goal with
    | |- context [if ?t then _ else _] => destruct t
    end; intros [= <-]; repeat constructor. }
  pose proof (arr_lookup_inv _ _ _ Hcols) as Hrange.
  apply slot_cases_8 in Hrange.
  destruct q as [i o]. cbn [index orientation] in *.
  destruct offs as [[i0 i1] i2].
  eexists. split; [reflexivity|].
  each_slot Hrange; injection Hcols as <-;
    repeat (apply elem_of_cons in Hperm as [[= -> -> ->]|Hperm];
            [repeat split; reflexivity|]);
    by apply elem_of_nil in Hperm.
Qed.

Lemma corner_offsets_perm (c : CubeModel) (q : Cubie) (S : CORNER.t) :
  ∃ offs, corner_offsets c q S = Ok offs ∧
          offs ∈ [(0, 1, 2); (0, 2, 1); (2, 0, 1); (1, 0, 2);
                  (1, 2, 0); (2, 1, 0)].
Proof.
  unfold corner_offsets.
  destruct (isSolved_total c) as [b ->]. cbn [mbind result_bind].
  repeat match goal with
  | |- context [if ?t then _ else _] => destruct t
  end; eexists; (split; [reflexivity|]); repeat constructor.
Qed.

Lemma getCornerColors_defined (c : CubeModel) (S : CORNER.t) (q : Cubie) :
  arr_lookup (corners c) S = Some q →
  0 <= index q < 8 →
  ∃ x y z, getCornerColors c S = Ok [# Some x; Some y; Some z].
Proof.
  intros Hq Hrange. unfold getCornerColors, arr_at. rewrite Hq.
  cbn [mbind result_bind].
  destruct (corner_offsets_perm c q S) as (offs & -> & Hperm).
  cbn [mbind result_bind].
  apply slot_cases_8 in Hrange.
  destruct q as [i o]. cbn [index orientation] in *.
  each_slot Hrange;
    repeat (apply elem_of_cons in Hperm as [->|Hperm];
            [do 3 eexists; reflexivity|]);
    by apply elem_of_nil in Hperm.
Qed.

Lemma getColor_default_branch (c : CubeModel) (face : FACE.t) (row col : Z) :
  face ∉ real_faces →
  (row, col) ≠ (1, 1) →
  getColor c face row col = Ok COLOR.WHITE.
Proof.
  intros Hface Hcell. unfold getColor.
  assert ((row =? 1) && (col =? 1) = false) as ->.
  { apply andb_false_iff.
    destruct (Z.eqb_spec row 1) as [->|], (Z.eqb_spec col 1) as [->|]; auto.
    by destruct Hcell. }
  assert (∀ f, f ∈ real_faces → (face =? f) = false) as Hne.
  { intros f Hf. apply Z.eqb_neq. by intros ->. }
  rewrite !Hne; [reflexivity|..]; unfold real_faces; repeat constructor.
Qed.

(** * The specified behaviour, statement by statement *)

(** C1. Decoding the solved frame of the protocol documentation gives a
    state on which [isSolved] returns true, and on which [getFaceColors]
    returns, for each of the six faces, the 3x3 grid whose nine cells are
    that face's centre colour. *)
Theorem solved_frame_shows_uniform_faces :
  let c := CubeModel_of_data solved_frame in
  isSolved c = Ok true ∧
  Forall (λ f, ∃ col, arr_idx (centers c) f = Ok col ∧
                      getFaceColors c f = Ok (uniform_grid col)) real_faces ∧
  getFaceColors c <$> real_faces =
    (λ col, Ok (uniform_grid col)) <$>
      [COLOR.GREEN; COLOR.RED; COLOR.WHITE; COLOR.ORANGE; COLOR.YELLOW;
       COLOR.BLUE].
Proof.
  cbv zeta. split; [vm_compute; reflexivity|]. split.
  - unfold real_faces. repeat constructor; eexists; split; vm_compute; reflexivity.
  - vm_compute. reflexivity.
Qed.

(** C2. In the decoding constructor the bytes at offsets 28..30 decide the
    edge orientations: (8,9,8) flips exactly UB, BL, _BR and DB; (2,6,2)
    flips exactly UF, FL, FR and DF; (0x0A,0x0F,0x0A) flips exactly those
    eight; every other edge slot stays ORIENTED. *)
Theorem flip_triple_sets_edge_orientations (data : frame) (S : EDGE.t) :
  0 <= S < 12 →
  (flip_triple data = (8, 9, 8) →
   edge_orientation (CubeModel_of_data data) S =
   Some (if bool_decide (S ∈ back_axis_edges)
         then DIR.FLIPPED else DIR.ORIENTED)) ∧
  (flip_triple data = (2, 6, 2) →
   edge_orientation (CubeModel_of_data data) S =
   Some (if bool_decide (S ∈ front_axis_edges)
         then DIR.FLIPPED else DIR.ORIENTED)) ∧
  (flip_triple data = (0x0A, 0x0F, 0x0A) →
   edge_orientation (CubeModel_of_data data) S =
   Some (if bool_decide (S ∈ back_axis_edges ++ front_axis_edges)
         then DIR.FLIPPED else DIR.ORIENTED)).
Proof.
  intros HS. rewrite (decoded_edge_orientation data S HS).
  destruct (flags_of_triple data) as (HA & HB & HC & _).
  apply slot_cases_12 in HS.
  split; [|split]; intros Ht.
  - destruct (HA Ht) as [-> ->]. each_slot HS; reflexivity.
  - destruct (HB Ht) as [-> ->]. each_slot HS; reflexivity.
  - destruct (HC Ht) as [-> ->]. each_slot HS; reflexivity.
Qed.

Lemma flip_triple_sets_edge_orientations_witness :
  edge_orientation (CubeModel_of_data (frame_with_triple x08 x09 x08)) EDGE.BL
    = Some DIR.FLIPPED ∧
  edge_orientation (CubeModel_of_data (frame_with_triple x02 x06 x02)) EDGE.BL
    = Some DIR.ORIENTED ∧
  edge_orientation (CubeModel_of_data (frame_with_triple x0a x0f x0a)) EDGE.DF
    = Some DIR.FLIPPED.
Proof.
  assert (HBL : 0 <= EDGE.BL < 12) by (unfold EDGE.BL; lia).
  assert (HDF : 0 <= EDGE.DF < 12) by (unfold EDGE.DF; lia).
  split; [|split].
  - exact (proj1 (flip_triple_sets_edge_orientations
                    (frame_with_triple x08 x09 x08) EDGE.BL HBL) eq_refl).
  - exact (proj1 (proj2 (flip_triple_sets_edge_orientations
                    (frame_with_triple x02 x06 x02) EDGE.BL HBL)) eq_refl).
  - exact (proj2 (proj2 (flip_triple_sets_edge_orientations
                    (frame_with_triple x0a x0f x0a) EDGE.DF HDF)) eq_refl).
Defined.

(** C3, as the specification words it, fails: for the solved frame with
    (1,2,3) at offsets 28..30, which is none of the three patterns and not
    the all-zero triple either, the constructor reports no
    InvalidFlipPattern; it builds a state whose twelve edges are all
    ORIENTED. *)
Lemma unknown_triple_is_not_rejected :
  let data := frame_with_triple x01 x02 x03 in
  flip_triple data = (1, 2, 3) ∧
  decode data ≠ inl InvalidFlipPattern ∧
  ∃ c, decode data = inr c ∧
       edge_orientation c <$> [0; 1; 2; 3; 4; 5; 6; 7; 8; 9; 10; 11]
       = replicate 12 (Some DIR.ORIENTED).
Proof.
  cbv zeta. split; [reflexivity|]. split; [discriminate|].
  eexists. split; [reflexivity|]. vm_compute. reflexivity.
Qed.

(** C3, amended. For a frame whose bytes 28..30 are none of (8,9,8),
    (2,6,2) and (0x0A,0x0F,0x0A), the constructor reports no error: it
    builds a state, and every edge slot of that state is ORIENTED. *)
Theorem unknown_triple_leaves_edges_oriented (data : frame) (S : EDGE.t) :
  flip_triple data ≠ (8, 9, 8) →
  flip_triple data ≠ (2, 6, 2) →
  flip_triple data ≠ (0x0A, 0x0F, 0x0A) →
  0 <= S < 12 →
  ∃ c, decode data = inr c ∧ edge_orientation c S = Some DIR.ORIENTED.
Proof.
  intros HA HB HC HS. exists (CubeModel_of_data data).
  split; [reflexivity|].
  rewrite (decoded_edge_orientation data S HS).
  destruct (flags_of_triple data) as (_ & _ & _ & Hnone).
  destruct (Hnone HA HB HC) as [-> ->]. reflexivity.
Qed.

Lemma unknown_triple_leaves_edges_oriented_witness :
  ∃ c, decode (frame_with_triple x01 x02 x03) = inr c ∧
       edge_orientation c EDGE.UB = Some DIR.ORIENTED.
Proof.
  apply (unknown_triple_leaves_edges_oriented
           (frame_with_triple x01 x02 x03) EDGE.UB);
    [vm_compute; discriminate .. | unfold EDGE.UB; lia].
Defined.

(** C4. The specification has the face index of bytes 32 and 34 mapped to
    the face with the centre of the documented colour (1 Blue, 2 Yellow,
    3 Orange, 4 White, 5 Red, 6 Green).  The constructor stores the raw
    byte as the [FACE] value instead.  On the solved frame of the header
    both bytes are 5, documented as Red, whose face is LEFT; the stored
    value is [FACE::DOWN], whose centre is Blue.  Index 6, documented as
    Green, is stored as [FACE::NONE]. *)
Theorem turned_face_is_the_raw_index :
  (∀ data, turnedFace (CubeModel_of_data data) = rd data 32 ∧
           lastTurnedFace (CubeModel_of_data data) = rd data 34) ∧
  (let c := CubeModel_of_data solved_frame in
   rd solved_frame 32 = 5 ∧ rd solved_frame 34 = 5 ∧
   face_of_color <$> device_face_color 5 = Some FACE.LEFT ∧
   turnedFace c = FACE.DOWN ∧ lastTurnedFace c = FACE.DOWN ∧
   arr_idx (centers c) (turnedFace c) = Ok COLOR.BLUE) ∧
  (let c := CubeModel_of_data (poke 32 x06 solved_frame) in
   face_of_color <$> device_face_color 6 = Some FACE.UP ∧
   turnedFace c = FACE.NONE).
Proof.
  split; [intros data; split; reflexivity|].
  split; vm_compute; repeat split; reflexivity.
Qed.

(** C5. For every state and every edge slot S, [getEdgeColors(S)] returns
    the colour pair of the identity stored in the slot (the occupant, not
    the slot), in canonical order when the slot's orientation is ORIENTED
    and reversed when it is FLIPPED; so for each of the twelve identities
    the FLIPPED result is the reverse of the ORIENTED result. *)
Theorem getEdgeColors_follows_occupant :
  (∀ (c : CubeModel) (S : EDGE.t), 0 <= S < 12 →
     ∃ q, arr_lookup (edges c) S = Some q ∧
       ∀ a b, arr_lookup edge_pairs (index q) = Some (a, b) →
         (orientation q = DIR.ORIENTED →
          getEdgeColors c S = Ok [# Some a; Some b]) ∧
         (orientation q = DIR.FLIPPED →
          getEdgeColors c S = Ok [# Some b; Some a])) ∧
  (∀ (i : Z) (c1 c2 : CubeModel) (S1 S2 : EDGE.t), 0 <= i < 12 →
     arr_lookup (edges c1) S1 = Some (mkCubie i DIR.ORIENTED) →
     arr_lookup (edges c2) S2 = Some (mkCubie i DIR.FLIPPED) →
     ∃ r1 r2, getEdgeColors c1 S1 = Ok r1 ∧ getEdgeColors c2 S2 = Ok r2 ∧
              vec_to_list r2 = reverse (vec_to_list r1)).
Proof.
  split.
  - intros c S HS.
    destruct (arr_lookup_in_range (edges c) S) as [q Hq]; [simpl; lia|].
    exists q. split; [exact Hq|]. intros a b Hpair.
    rewrite (getEdgeColors_by_identity c S q a b Hq Hpair).
    split; intros ->; reflexivity.
  - intros i c1 c2 S1 S2 Hi H1 H2.
    destruct (arr_lookup_in_range edge_pairs i) as [[a b] Hpair]; [simpl; lia|].
    rewrite (getEdgeColors_by_identity c1 S1 _ a b H1 Hpair).
    rewrite (getEdgeColors_by_identity c2 S2 _ a b H2 Hpair).
    do 2 eexists. split; [reflexivity|]. split; reflexivity.
Qed.

Lemma getEdgeColors_follows_occupant_witness :
  getEdgeColors (CubeModel_of_data frame_DF_in_UB) EDGE.UB
    = Ok [# Some COLOR.WHITE; Some COLOR.BLUE] ∧
  ∃ r1 r2,
    getEdgeColors (CubeModel_of_data solved_frame) EDGE.DF = Ok r1 ∧
    getEdgeColors (CubeModel_of_data frame_DF_in_UB) EDGE.UB = Ok r2 ∧
    vec_to_list r2 = reverse (vec_to_list r1).
Proof.
  assert (HUB : 0 <= EDGE.UB < 12) by (unfold EDGE.UB; lia).
  split.
  - destruct (proj1 getEdgeColors_follows_occupant
                (CubeModel_of_data frame_DF_in_UB) EDGE.UB HUB)
      as (q & Hq & Hcol).
    injection Hq as <-.
    exact (proj2 (Hcol COLOR.BLUE COLOR.WHITE eq_refl) eq_refl).
  - apply (proj2 getEdgeColors_follows_occupant 10
             (CubeModel_of_data solved_frame)
             (CubeModel_of_data frame_DF_in_UB) EDGE.DF EDGE.UB);
      [lia | reflexivity | reflexivity].
Defined.

(** C6. [isSolved] returns true exactly when each of the twelve edge slots
    holds its own index with orientation ORIENTED and each of the corner
    slots 0..5 does too; corner slots 6 and 7 are not looked at.  It
    returns false as soon as one slot in that range has another index or
    another orientation. *)
Theorem isSolved_checks_edges_and_six_corners (c : CubeModel) :
  (isSolved c = Ok true ↔
   (∀ i, 0 <= i < 12 → in_place (edges c) i) ∧
   (∀ i, 0 <= i < 6 → in_place (corners c) i)) ∧
  (isSolved c = Ok false ↔
   ¬ ((∀ i, 0 <= i < 12 → in_place (edges c) i) ∧
      (∀ i, 0 <= i < 6 → in_place (corners c) i))) ∧
  ((∃ i, 0 <= i < 12 ∧ ¬ in_place (edges c) i) ∨
   (∃ i, 0 <= i < 6 ∧ ¬ in_place (corners c) i) →
   isSolved c = Ok false).
Proof.
  split; [apply isSolved_true_iff|].
  split; [apply isSolved_false_iff|].
  intros H. apply isSolved_false_iff. intros [HE HC].
  destruct H as [(i & Hi & Hn)|(i & Hi & Hn)]; apply Hn; auto.
Qed.

Lemma isSolved_checks_edges_and_six_corners_witness :
  isSolved (CubeModel_of_data frame_ULB_twice) = Ok false.
Proof.
  apply (isSolved_checks_edges_and_six_corners
           (CubeModel_of_data frame_ULB_twice)).
  right. exists 0. split; [lia|].
  intros (q & Hq & _ & Ho). injection Hq as <-. discriminate Ho.
Defined.

(** C7. The state of the default constructor and the state decoded from
    the solved frame are equal under [operator==], which compares the
    twelve edge slots, the eight corner slots and the six centre colours
    position by position and leaves the move fields out (they differ
    between these two states). *)
Theorem default_equals_decoded_solved_frame :
  equal CubeModel_default (CubeModel_of_data solved_frame) = Ok true ∧
  equal (CubeModel_of_data solved_frame) CubeModel_default = Ok true ∧
  turnedFace CubeModel_default ≠ turnedFace (CubeModel_of_data solved_frame) ∧
  (∀ a b : CubeModel,
     (∃ r, equal a b = Ok r) ∧
     (equal a b = Ok true ↔
      edges a = edges b ∧ corners a = corners b ∧ centers a = centers b)).
Proof.
  split; [vm_compute; reflexivity|].
  split; [vm_compute; reflexivity|].
  split; [vm_compute; discriminate|].
  intros a b. split; [apply equal_total|apply equal_true_iff].
Qed.

(** C8. In [getCornerColors], when the corner in slot S has orientation
    ROTATED_TWICE and (index + S) mod 2 is 0, the offsets (i0,i1,i2) are
    (1,2,0) if [isSolved] is true and (2,1,0), that is with i0 and i1
    swapped, if it is false; the three colours of the piece are written at
    those offsets. *)
Theorem rotated_twice_even_swaps_unless_solved (c : CubeModel)
    (S : CORNER.t) (q : Cubie) (cols : COLOR.t * COLOR.t * COLOR.t)
    (solved : bool) :
  arr_lookup (corners c) S = Some q →
  orientation q = DIR.ROTATED_TWICE →
  (index q + S) mod 2 = 0 →
  arr_lookup corner_triples (index q) = Some cols →
  isSolved c = Ok solved →
  corner_offsets c q S = Ok (if solved then (1, 2, 0) else (2, 1, 0)) ∧
  ∃ r, getCornerColors c S = Ok r ∧
       holds_at r (if solved then (1, 2, 0) else (2, 1, 0)) cols.
Proof.
  intros Hq Ho Hpar Hcols Hs.
  pose proof (corner_offsets_twice_even c q S solved Ho Hpar Hs) as Hoffs.
  split; [exact Hoffs|].
  exact (getCornerColors_by_offsets c S q _ cols Hq Hoffs Hcols).
Qed.

Lemma rotated_twice_even_swaps_unless_solved_witness :
  (∃ r, getCornerColors (CubeModel_of_data frame_DRF_twice) CORNER.DRF = Ok r ∧
        holds_at r (1, 2, 0) (COLOR.BLUE, COLOR.ORANGE, COLOR.WHITE)) ∧
  (∃ r, getCornerColors (CubeModel_of_data frame_ULB_twice) CORNER.ULB = Ok r ∧
        holds_at r (2, 1, 0) (COLOR.GREEN, COLOR.RED, COLOR.YELLOW)).
Proof.
  split.
  - apply (rotated_twice_even_swaps_unless_solved
             (CubeModel_of_data frame_DRF_twice) CORNER.DRF
             (mkCubie 6 DIR.ROTATED_TWICE)
             (COLOR.BLUE, COLOR.ORANGE, COLOR.WHITE) true);
      reflexivity.
  - apply (rotated_twice_even_swaps_unless_solved
             (CubeModel_of_data frame_ULB_twice) CORNER.ULB
             (mkCubie 0 DIR.ROTATED_TWICE)
             (COLOR.GREEN, COLOR.RED, COLOR.YELLOW) false);
      reflexivity.
Defined.

(** C9. On the RIGHT face the top-left cell (0,0) and the top-right cell
    (0,2) are both colour 1 of the corner query for slot URF, so the two
    cells are equal in every state; when the piece in slot URF is one of
    the eight corner identities, both are a colour. *)
Theorem right_face_top_corners_coincide (c : CubeModel) :
  getColor c FACE.RIGHT 0 0 = cell (getCornerColors c CORNER.URF) 1 ∧
  getColor c FACE.RIGHT 0 2 = cell (getCornerColors c CORNER.URF) 1 ∧
  getColor c FACE.RIGHT 0 0 = getColor c FACE.RIGHT 0 2 ∧
  (∀ q, arr_lookup (corners c) CORNER.URF = Some q → 0 <= index q < 8 →
        ∃ col, getColor c FACE.RIGHT 0 0 = Ok col ∧
               getColor c FACE.RIGHT 0 2 = Ok col).
Proof.
  assert (H0 : getColor c FACE.RIGHT 0 0 = cell (getCornerColors c CORNER.URF) 1)
    by reflexivity.
  assert (H2 : getColor c FACE.RIGHT 0 2 = cell (getCornerColors c CORNER.URF) 1)
    by reflexivity.
  split; [exact H0|]. split; [exact H2|]. split; [by rewrite H0, H2|].
  intros q Hq Hrange. rewrite H0, H2.
  destruct (getCornerColors_defined c CORNER.URF q Hq Hrange)
    as (x & y & z & ->).
  exists y. split; reflexivity.
Qed.

Lemma right_face_top_corners_coincide_witness :
  ∃ col, getColor (CubeModel_of_data frame_DRF_twice) FACE.RIGHT 0 0 = Ok col ∧
         getColor (CubeModel_of_data frame_DRF_twice) FACE.RIGHT 0 2 = Ok col.
Proof.
  apply (right_face_top_corners_coincide (CubeModel_of_data frame_DRF_twice))
    with (q := mkCubie 2 DIR.ORIENTED);
    [reflexivity | simpl; lia].
Defined.

(** C10. For every state and every cell other than (1,1), [getColor] with
    a face value that is none of the six faces (such as [FACE::NONE]) takes
    the default branch of the switch and returns WHITE, whatever the edges,
    corners and centres hold. *)
Theorem getColor_unknown_face_is_white (c : CubeModel) (face : FACE.t)
    (row col : Z) :
  face ∉ real_faces →
  (row, col) ≠ (1, 1) →
  getColor c face row col = Ok COLOR.WHITE.
Proof. apply getColor_default_branch. Qed.

Lemma getColor_unknown_face_is_white_witness :
  getColor (CubeModel_of_data frame_ULB_twice) FACE.NONE 0 2 = Ok COLOR.WHITE.
Proof.
  apply (getColor_unknown_face_is_white
           (CubeModel_of_data frame_ULB_twice) FACE.NONE 0 2).
  - unfold real_faces. intros H. repeat (apply elem_of_cons in H as [H|H];
      [discriminate H|]). by apply elem_of_nil in H.
  - discriminate.
Defined.

(** * Further properties of the class *)

Global Instance Ok_inj {A} : Inj (=) (=) (@Ok A).
Proof. by intros x y [= ->]. Qed.

(** ** Queries read the three arrays only *)

Lemma isSolved_loop_fields (a b : CubeModel) (n : nat) (i : Z) :
  edges a = edges b → corners a = corners b →
  isSolved_loop a n i = isSolved_loop b n i.
Proof.
  intros HE HC. revert i. induction n as [|n IH]; intros i; [reflexivity|].
  cbn [isSolved_loop]. rewrite HE, HC.
  destruct (arr_idx (edges b) i) as [e| |]; cbn [mbind result_bind]; try done.
  destruct (negb (index e =? i) || _); [done|].
  destruct (i <? 6); [|apply IH].
  destruct (arr_idx (corners b) i) as [k| |]; cbn [mbind result_bind]; try done.
  destruct (negb (index k =? i) || _); [done|apply IH].
Qed.

Lemma isSolved_fields (a b : CubeModel) :
  edges a = edges b → corners a = corners b → isSolved a = isSolved b.
Proof. intros. by apply isSolved_loop_fields. Qed.

Lemma getEdgeColors_fields (a b : CubeModel) (S : EDGE.t) :
  edges a = edges b → getEdgeColors a S = getEdgeColors b S.
Proof. intros HE. unfold getEdgeColors. by rewrite HE. Qed.

Lemma getCornerColors_fields (a b : CubeModel) (S : CORNER.t) :
  edges a = edges b → corners a = corners b →
  getCornerColors a S = getCornerColors b S.
Proof.
  intros HE HC. unfold getCornerColors, corner_offsets.
  by rewrite HC, (isSolved_fields a b HE HC).
Qed.

Lemma getColor_fields (a b : CubeModel) (face : FACE.t) (row col : Z) :
  edges a = edges b → corners a = corners b → centers a = centers b →
  getColor a face row col = getColor b face row col.
Proof.
  intros HE HC HX. unfold getColor. rewrite HX.
  assert (HgE : ∀ S, getEdgeColors a S = getEdgeColors b S)
    by (intros; by apply getEdgeColors_fields).
  assert (HgC : ∀ S, getCornerColors a S = getCornerColors b S)
    by (intros; by apply getCornerColors_fields).
  by rewrite !HgE, !HgC.
Qed.

Lemma getFaceColors_fields (a b : CubeModel) (face : FACE.t) :
  edges a = edges b → corners a = corners b → centers a = centers b →
  getFaceColors a face = getFaceColors b face.
Proof.
  intros HE HC HX. unfold getFaceColors.
  assert (Hg : ∀ row col, getColor a face row col = getColor b face row col)
    by (intros; by apply getColor_fields).
  cbn [mapM]. by rewrite !Hg.
Qed.

Lemma equal_symmetric (a b : CubeModel) : equal a b = equal b a.
Proof.
  destruct (equal_total a b) as [r Hr], (equal_total b a) as [r' Hr'].
  rewrite Hr, Hr'. f_equal.
  pose proof (equal_true_iff a b) as Hab.
  pose proof (equal_true_iff b a) as Hba.
  rewrite Hr in Hab. rewrite Hr' in Hba.
  destruct r, r'; try reflexivity.
  - destruct Hab as [Hab _]. destruct (Hab eq_refl) as (HE & HC & HX).
    destruct Hba as [_ Hba]. symmetry. apply (inj Ok), Hba.
    by rewrite HE, HC, HX.
  - destruct Hba as [Hba _]. destruct (Hba eq_refl) as (HE & HC & HX).
    destruct Hab as [_ Hab]. apply (inj Ok), Hab. by rewrite HE, HC, HX.
Qed.

(** X1. [operator==] always returns, and it is reflexive, symmetric and
    transitive; [operator!=] returns its negation. *)
Theorem equal_is_an_equivalence :
  (∀ a, equal a a = Ok true) ∧
  (∀ a b, equal a b = equal b a) ∧
  (∀ a b c, equal a b = Ok true → equal b c = Ok true →
            equal a c = Ok true) ∧
  (∀ a b, ∃ r, equal a b = Ok r ∧ not_equal a b = Ok (negb r)).
Proof.
  split; [intros a; by apply equal_true_iff|].
  split; [apply equal_symmetric|].
  split.
  - intros a b c (HE & HC & HX)%equal_true_iff (HE' & HC' & HX')%equal_true_iff.
    apply equal_true_iff. by rewrite HE, HC, HX.
  - intros a b. destruct (equal_total a b) as [r Hr]. exists r.
    split; [exact Hr|]. unfold not_equal. by rewrite Hr.
Qed.

Lemma equal_is_an_equivalence_witness :
  equal CubeModel_default (CubeModel_of_data frame_other_move) = Ok true.
Proof.
  apply (proj1 (proj2 (proj2 equal_is_an_equivalence))
           CubeModel_default (CubeModel_of_data solved_frame)
           (CubeModel_of_data frame_other_move));
    vm_compute; reflexivity.
Defined.



(** X3. A state that [operator==] reports equal to the default state is
    solved for [isSolved]; the converse fails, because [isSolved] skips
    corner slots 6 and 7: the state decoded from [frame_DRF_twice] is solved
    for [isSolved] and different from the default state. *)
Theorem isSolved_is_weaker_than_equality :
  (∀ c, equal c CubeModel_default = Ok true → isSolved c = Ok true) ∧
  isSolved (CubeModel_of_data frame_DRF_twice) = Ok true ∧
  equal (CubeModel_of_data frame_DRF_twice) CubeModel_default = Ok false.
Proof.
  split; [|split; vm_compute; reflexivity].
  intros c (HE & HC & _)%equal_true_iff.
  by rewrite (isSolved_fields c CubeModel_default HE HC).
Qed.

Lemma isSolved_is_weaker_than_equality_witness :
  isSolved (CubeModel_of_data frame_other_move) = Ok true.
Proof.
  apply (proj1 isSolved_is_weaker_than_equality).
  vm_compute. reflexivity.
Defined.

(** ** What the decoding constructor stores *)

Lemma arr_lookup_init_8 {A} (f : Z → A) (i : Z) :
  0 <= i < 8 → arr_lookup (arr_init 8 f) i = Some (f i).
Proof. intros H%slot_cases_8. each_slot H; reflexivity. Qed.

Lemma arr_lookup_init_12 {A} (f : Z → A) (i : Z) :
  0 <= i < 12 → arr_lookup (arr_init 12 f) i = Some (f i).
Proof. intros H%slot_cases_12. each_slot H; reflexivity. Qed.

Lemma decoded_edges (data : frame) :
  edges (CubeModel_of_data data) =
  arr_init 12 (λ i,
    mkCubie (u8 (rd data (i + 16) - 1))
      (if back_flag data && bool_decide (i ∈ back_axis_edges)
          || front_flag data && bool_decide (i ∈ front_axis_edges)
       then DIR.FLIPPED else DIR.ORIENTED)).
Proof.
  unfold CubeModel_of_data. cbn [edges].
  change ((rd data 28 =? 8) && _ && _ || _) with (back_flag data).
  change ((rd data 28 =? 2) && _ && _ || _) with (front_flag data).
  destruct (back_flag data), (front_flag data); reflexivity.
Qed.

Lemma decoded_edge (data : frame) (i : Z) :
  0 <= i < 12 →
  arr_lookup (edges (CubeModel_of_data data)) i =
  Some (mkCubie (u8 (rd data (i + 16) - 1))
          (if back_flag data && bool_decide (i ∈ back_axis_edges)
              || front_flag data && bool_decide (i ∈ front_axis_edges)
           then DIR.FLIPPED else DIR.ORIENTED)).
Proof. intros Hi. by rewrite decoded_edges, arr_lookup_init_12. Qed.

Lemma decoded_corner (data : frame) (i : Z) :
  0 <= i < 8 →
  arr_lookup (corners (CubeModel_of_data data)) i =
  Some (mkCubie (u8 (rd data i - 1)) (rd data (i + 8))).
Proof.
  intros Hi. unfold CubeModel_of_data. cbn [corners].
  by rewrite arr_lookup_init_8.
Qed.

Lemma rd_range (data : frame) (i : Z) : 0 <= rd data i < 256.
Proof.
  unfold rd. destruct (arr_lookup data i) as [b|]; [|lia].
  unfold Z_of_byte. pose proof (Byte.to_N_bounded b). lia.
Qed.

Lemma u8_pred_eq (b i : Z) :
  0 <= b < 256 → 0 <= i < 255 → u8 (b - 1) = i ↔ b = i + 1.
Proof.
  intros Hb Hi. unfold u8. split.
  - intros H. destruct (decide (b = 0)) as [->|].
    + change ((0 - 1) mod 256) with 255 in H. lia.
    + rewrite Z.mod_small in H; lia.
  - intros ->. rewrite Z.mod_small; lia.
Qed.

Lemma u8_pred_inj (b b' : Z) :
  0 <= b < 256 → 0 <= b' < 256 → u8 (b - 1) = u8 (b' - 1) → b = b'.
Proof.
  intros Hb Hb'. unfold u8.
  destruct (decide (b = 0)) as [->|], (decide (b' = 0)) as [->|];
    change ((0 - 1) mod 256) with 255; rewrite ?Z.mod_small; lia.
Qed.

Lemma decoded_flags_of_edges (d1 d2 : frame) :
  edges (CubeModel_of_data d1) = edges (CubeModel_of_data d2) →
  back_flag d1 = back_flag d2 ∧ front_flag d1 = front_flag d2.
Proof.
  intros HE.
  assert (H0 : edge_orientation (CubeModel_of_data d1) EDGE.UB
               = edge_orientation (CubeModel_of_data d2) EDGE.UB)
    by (unfold edge_orientation; by rewrite HE).
  assert (H2 : edge_orientation (CubeModel_of_data d1) EDGE.UF
               = edge_orientation (CubeModel_of_data d2) EDGE.UF)
    by (unfold edge_orientation; by rewrite HE).
  rewrite !decoded_edge_orientation in H0, H2 by (unfold EDGE.UB, EDGE.UF; lia).
  destruct (back_flag d1), (back_flag d2), (front_flag d1), (front_flag d2);
    vm_compute in H0, H2; try discriminate; done.
Qed.

(** X4. Two decoded states are equal for [operator==] exactly when the two
    frames have the same 28 piece bytes (offsets 0..27) and satisfy the same
    of the two flip conditions; offsets 31..35 play no part, and two
    different flip triples that are both unknown decode alike. *)
Theorem decoded_states_equal_iff (d1 d2 : frame) :
  equal (CubeModel_of_data d1) (CubeModel_of_data d2) = Ok true ↔
  (∀ i, 0 <= i < 28 → rd d1 i = rd d2 i) ∧
  back_flag d1 = back_flag d2 ∧ front_flag d1 = front_flag d2.
Proof.
  rewrite equal_true_iff. split.
  - intros (HE & HC & _). split; [|by apply decoded_flags_of_edges].
    intros i Hi.
    destruct (decide (i < 8)) as [H8|H8];
      [|destruct (decide (i < 16)) as [H16|H16]].
    + assert (Hl := f_equal (λ v, arr_lookup v i) HC). cbv beta in Hl.
      rewrite !decoded_corner in Hl by lia. injection Hl as Hidx _.
      apply u8_pred_inj in Hidx; [done|apply rd_range..].
    + assert (Hl := f_equal (λ v, arr_lookup v (i - 8)) HC). cbv beta in Hl.
      rewrite !decoded_corner in Hl by lia. injection Hl as _ Hor.
      by replace (i - 8 + 8) with i in Hor by lia.
    + assert (Hl := f_equal (λ v, arr_lookup v (i - 16)) HE). cbv beta in Hl.
      rewrite !decoded_edge in Hl by lia. injection Hl as Hidx _.
      replace (i - 16 + 16) with i in Hidx by lia.
      apply u8_pred_inj in Hidx; [done|apply rd_range..].
  - intros (Hbytes & Hb & Hf). split; [|split; [|reflexivity]].
    + apply arr_lookup_ext. intros i Hi. simpl in Hi.
      rewrite !decoded_edge by lia.
      by rewrite Hb, Hf, (Hbytes (i + 16)) by lia.
    + apply arr_lookup_ext. intros i Hi. simpl in Hi.
      rewrite !decoded_corner by lia.
      by rewrite (Hbytes i), (Hbytes (i + 8)) by lia.
Qed.

(** X5. The decoded state is solved for [isSolved] exactly when the frame
    has bytes 1..6 at offsets 0..5, byte 3 at offsets 8..13, bytes 1..12 at
    offsets 16..27 and satisfies neither flip condition; the bytes of corner
    slots 6 and 7 (offsets 6, 7, 14, 15) and offsets 31..35 are free. *)
Theorem decoded_isSolved_iff (data : frame) :
  isSolved (CubeModel_of_data data) = Ok true ↔
  (∀ i, 0 <= i < 6 → rd data i = i + 1 ∧ rd data (i + 8) = 3) ∧
  (∀ i, 0 <= i < 12 → rd data (i + 16) = i + 1) ∧
  back_flag data = false ∧ front_flag data = false.
Proof.
  rewrite isSolved_true_iff. unfold checked_range_solved, in_place. split.
  - intros [HE HC]. split; [|split].
    + intros i Hi. destruct (HC i Hi) as (q & Hq & Hidx & Hor).
      rewrite decoded_corner in Hq by lia. injection Hq as <-.
      cbn [index orientation] in *. split; [|exact Hor].
      apply u8_pred_eq in Hidx; [done|apply rd_range|lia].
    + intros i Hi. destruct (HE i Hi) as (q & Hq & Hidx & _).
      rewrite decoded_edge in Hq by lia. injection Hq as <-.
      cbn [index] in Hidx.
      apply u8_pred_eq in Hidx; [done|apply rd_range|lia].
    + destruct (HE EDGE.UB) as (q0 & Hq0 & _ & Ho0); [unfold EDGE.UB; lia|].
      destruct (HE EDGE.UF) as (q2 & Hq2 & _ & Ho2); [unfold EDGE.UF; lia|].
      rewrite decoded_edge in Hq0, Hq2 by (unfold EDGE.UB, EDGE.UF; lia).
      injection Hq0 as <-. injection Hq2 as <-. cbn [orientation] in *.
      destruct (back_flag data), (front_flag data);
        vm_compute in Ho0, Ho2; try discriminate; done.
  - intros (HC & HE & Hb & Hf). split.
    + intros i Hi. eexists. split; [by apply decoded_edge|].
      cbn [index orientation]. rewrite Hb, Hf. cbn [andb orb].
      split; [|reflexivity].
      apply u8_pred_eq; [apply rd_range|lia|by apply HE].
    + intros i Hi. eexists. split; [apply decoded_corner; lia|].
      cbn [index orientation]. destruct (HC i Hi) as [Hidx Hor].
      split; [|exact Hor].
      apply u8_pred_eq; [apply rd_range|lia|done].
Qed.

(** X6. The constructor stores only ORIENTED or FLIPPED in the edge slots,
    and it flips whole groups of four: the number of FLIPPED edges of a
    decoded state is 0, 4 or 8, so it is even for every frame. *)
Theorem decoded_flips_come_in_fours (data : frame) :
  (∀ S q, arr_lookup (edges (CubeModel_of_data data)) S = Some q →
          orientation q = DIR.ORIENTED ∨ orientation q = DIR.FLIPPED) ∧
  flipped_edges (CubeModel_of_data data) =
    ((if back_flag data then 4 else 0) +
     (if front_flag data then 4 else 0))%nat ∧
  Nat.Even (flipped_edges (CubeModel_of_data data)).
Proof.
  split; [|split].
  - intros S q Hq.
    pose proof (arr_lookup_inv _ _ _ Hq) as HS. simpl in HS.
    rewrite decoded_edge in Hq by lia. injection Hq as <-.
    cbn [orientation]. destruct (_ || _); auto.
  - unfold flipped_edges. rewrite decoded_edges.
    destruct (back_flag data), (front_flag data); reflexivity.
  - unfold flipped_edges. rewrite decoded_edges.
    destruct (back_flag data), (front_flag data);
      [exists 4%nat|exists 2%nat|exists 2%nat|exists 0%nat]; reflexivity.
Qed.

Lemma decoded_states_equal_iff_witness :
  back_flag (frame_with_triple x01 x02 x03) = back_flag solved_frame ∧
  front_flag (frame_with_triple x01 x02 x03) = front_flag solved_frame.
Proof.
  apply (proj1 (decoded_states_equal_iff
                  (frame_with_triple x01 x02 x03) solved_frame)).
  vm_compute. reflexivity.
Defined.

Lemma decoded_isSolved_iff_witness :
  back_flag frame_DRF_twice = false ∧ front_flag frame_DRF_twice = false.
Proof.
  apply (proj1 (decoded_isSolved_iff frame_DRF_twice)).
  vm_compute. reflexivity.
Defined.

Lemma decoded_flips_come_in_fours_witness :
  orientation (mkCubie 4 DIR.FLIPPED) = DIR.ORIENTED ∨
  orientation (mkCubie 4 DIR.FLIPPED) = DIR.FLIPPED.
Proof.
  apply (proj1 (decoded_flips_come_in_fours (frame_with_triple x08 x09 x08))
           EDGE.BL).
  reflexivity.
Defined.

(** ** Bounds of the colour queries *)

Lemma arr_lookup_outside {A n} (a : vec A n) (i : Z) :
  ¬ 0 <= i < Z.of_nat n → arr_lookup a i = None.
Proof.
  intros Hi. unfold arr_lookup. destruct (decide (0 <= i)); [|done].
  apply lookup_ge_None_2. rewrite length_vec_to_list. lia.
Qed.

(** X7. [getEdgeColors] returns for every slot 0..11 and throws
    [std::out_of_range] for every other argument; [getCornerColors] returns
    for every slot 0..7 and throws for every other argument. *)
Theorem colour_queries_throw_outside_the_slots (c : CubeModel) (S : Z) :
  (0 <= S < 12 → ∃ r, getEdgeColors c S = Ok r) ∧
  (¬ 0 <= S < 12 → getEdgeColors c S = Throw_out_of_range) ∧
  (0 <= S < 8 → ∃ r, getCornerColors c S = Ok r) ∧
  (¬ 0 <= S < 8 → getCornerColors c S = Throw_out_of_range).
Proof.
  split; [|split; [|split]]; intros HS.
  - destruct (arr_at_in_range (edges c) S) as (q & _ & Hq); [simpl; lia|].
    unfold getEdgeColors. rewrite Hq. cbn [mbind result_bind]. by eexists.
  - unfold getEdgeColors, arr_at.
    by rewrite (arr_lookup_outside (edges c) S) by (simpl; lia).
  - destruct (arr_at_in_range (corners c) S) as (q & _ & Hq); [simpl; lia|].
    unfold getCornerColors. rewrite Hq. cbn [mbind result_bind].
    destruct (corner_offsets_perm c q S) as ([[i0 i1] i2] & -> & _).
    cbn [mbind result_bind]. by eexists.
  - unfold getCornerColors, arr_at.
    by rewrite (arr_lookup_outside (corners c) S) by (simpl; lia).
Qed.

Lemma colour_queries_throw_outside_the_slots_witness :
  getEdgeColors (CubeModel_of_data solved_frame) 12 = Throw_out_of_range ∧
  getCornerColors (CubeModel_of_data solved_frame) 8 = Throw_out_of_range ∧
  (∃ r, getEdgeColors (CubeModel_of_data solved_frame) 11 = Ok r) ∧
  (∃ r, getCornerColors (CubeModel_of_data solved_frame) 7 = Ok r).
Proof.
  split; [|split; [|split]].
  - apply (proj1 (proj2 (colour_queries_throw_outside_the_slots
             (CubeModel_of_data solved_frame) 12))). lia.
  - apply (proj2 (proj2 (proj2 (colour_queries_throw_outside_the_slots
             (CubeModel_of_data solved_frame) 8)))). lia.
  - apply (proj1 (colour_queries_throw_outside_the_slots
             (CubeModel_of_data solved_frame) 11)). lia.
  - apply (proj1 (proj2 (proj2 (colour_queries_throw_outside_the_slots
             (CubeModel_of_data solved_frame) 7)))). lia.
Defined.

Ltac no_case_matches :=
  repeat match goal with
  | |- context [?x =? ?y] =>
      destruct (Z.eqb_spec x y) as [?E|?E];
      [exfalso;
       unfold EDGE.UB, EDGE.UL, EDGE.UF, EDGE.UR, EDGE.BL, EDGE.FL, EDGE.FR,
         EDGE._BR, EDGE.DB, EDGE.DL, EDGE.DF, EDGE.DR, CORNER.ULB,
         CORNER.ULF, CORNER.URF, CORNER.URB, CORNER.DLB, CORNER.DLF,
         CORNER.DRF, CORNER.DRB in *; lia|]
  end.

Lemma getEdgeColors_unknown (c : CubeModel) (S : Z) (q : Cubie) :
  arr_lookup (edges c) S = Some q → ¬ 0 <= index q < 12 →
  getEdgeColors c S = Ok [# None; None] ∧
  ∀ k, cell (getEdgeColors c S) k = Undefined.
Proof.
  intros Hq Hidx.
  assert (Hr : getEdgeColors c S = Ok [# None; None]).
  { unfold getEdgeColors, arr_at. rewrite Hq. cbn [mbind result_bind].
    destruct (orientation q =? DIR.FLIPPED); no_case_matches; reflexivity. }
  split; [exact Hr|]. intros k. rewrite Hr. unfold cell, arr_lookup.
  cbn [mbind result_bind]. destruct (decide (0 <= k)); [|done].
  cbn [vec_to_list]. by destruct (Z.to_nat k) as [|[|[|]]].
Qed.

Lemma getCornerColors_unknown (c : CubeModel) (S : Z) (q : Cubie) :
  arr_lookup (corners c) S = Some q → ¬ 0 <= index q < 8 →
  getCornerColors c S = Ok [# None; None; None] ∧
  ∀ k, cell (getCornerColors c S) k = Undefined.
Proof.
  intros Hq Hidx.
  assert (Hr : getCornerColors c S = Ok [# None; None; None]).
  { unfold getCornerColors, arr_at. rewrite Hq. cbn [mbind result_bind].
    destruct (corner_offsets_perm c q S) as ([[i0 i1] i2] & -> & _).
    cbn [mbind result_bind]. no_case_matches. reflexivity. }
  split; [exact Hr|]. intros k. rewrite Hr. unfold cell, arr_lookup.
  cbn [mbind result_bind]. destruct (decide (0 <= k)); [|done].
  cbn [vec_to_list]. by destruct (Z.to_nat k) as [|[|[|[|]]]].
Qed.

(** X8. The queries do not check the stored index.  When the index in an
    edge slot is none of 0..11, no case of the switch matches and
    [getEdgeColors] returns its local array with no cell assigned, so
    reading a colour out of it is undefined; the same holds for
    [getCornerColors] and an index that is none of 0..7. *)
Theorem unknown_identity_leaves_cells_unassigned (c : CubeModel) (S : Z)
    (q : Cubie) :
  (arr_lookup (edges c) S = Some q → ¬ 0 <= index q < 12 →
   getEdgeColors c S = Ok [# None; None] ∧
   ∀ k, cell (getEdgeColors c S) k = Undefined) ∧
  (arr_lookup (corners c) S = Some q → ¬ 0 <= index q < 8 →
   getCornerColors c S = Ok [# None; None; None] ∧
   ∀ k, cell (getCornerColors c S) k = Undefined).
Proof.
  split; [apply getEdgeColors_unknown|apply getCornerColors_unknown].
Qed.

Lemma unknown_identity_leaves_cells_unassigned_witness :
  getEdgeColors (CubeModel_of_data frame_zero_edge) EDGE.UB
    = Ok [# None; None] ∧
  ∀ k, cell (getEdgeColors (CubeModel_of_data frame_zero_edge) EDGE.UB) k
       = Undefined.
Proof.
  apply (proj1 (unknown_identity_leaves_cells_unassigned
                  (CubeModel_of_data frame_zero_edge) EDGE.UB
                  (mkCubie 255 DIR.ORIENTED))).
  - reflexivity.
  - simpl. lia.
Defined.

(** X9. For a corner slot whose stored index is one of the eight
    identities, [getCornerColors] returns the three colours of that piece,
    each exactly once, whatever the stored orientation value is; with
    orientation ORIENTED the first colour of the piece stays in cell 0. *)
Theorem getCornerColors_permutes_the_triple (c : CubeModel) (S : CORNER.t)
    (q : Cubie) (a b d : COLOR.t) :
  arr_lookup (corners c) S = Some q →
  arr_lookup corner_triples (index q) = Some (a, b, d) →
  ∃ r, getCornerColors c S = Ok r ∧
       vec_to_list r ≡ₚ [Some a; Some b; Some d] ∧
       (orientation q = DIR.ORIENTED → arr_lookup r 0 = Some (Some a)).
Proof.
  intros Hq Hcols.
  destruct (corner_offsets_perm c q S) as (offs & Hoffs & Hperm).
  unfold getCornerColors, arr_at. rewrite Hq. cbn [mbind result_bind].
  rewrite Hoffs. cbn [mbind result_bind].
  pose proof (arr_lookup_inv _ _ _ Hcols) as Hrange.
  apply slot_cases_8 in Hrange.
  destruct q as [i o]. cbn [index orientation] in *.
  each_slot Hrange; injection Hcols as <- <- <-;
    repeat (apply elem_of_cons in Hperm as [->|Hperm];
      [eexists; split; [reflexivity|]; split;
         [apply (bool_decide_unpack _); vm_compute; exact I|];
       intros ->; first
         [ reflexivity
         | exfalso; unfold corner_offsets in Hoffs;
           cbn [orientation] in Hoffs;
           change (DIR.ORIENTED =? DIR.ORIENTED) with true in Hoffs;
           cbv iota in Hoffs;
           destruct (_ =? 1) in Hoffs; discriminate Hoffs ]|]);
    by apply elem_of_nil in Hperm.
Qed.

Lemma getCornerColors_permutes_the_triple_witness :
  ∃ r, getCornerColors (CubeModel_of_data frame_DRF_twice) CORNER.DRF = Ok r ∧
       vec_to_list r ≡ₚ [Some COLOR.BLUE; Some COLOR.ORANGE; Some COLOR.WHITE] ∧
       (DIR.ROTATED_TWICE = DIR.ORIENTED → arr_lookup r 0 = Some (Some COLOR.BLUE)).
Proof.
  apply (getCornerColors_permutes_the_triple
           (CubeModel_of_data frame_DRF_twice) CORNER.DRF
           (mkCubie 6 DIR.ROTATED_TWICE));
    reflexivity.
Defined.

(** X10. [getColor] does not check [row] and [col]: every row other than 0
    and 1 is treated as row 2, and every column other than 0 and 1 as
    column 2. *)
Theorem getColor_treats_large_offsets_as_2 (c : CubeModel) (face : FACE.t)
    (row col : Z) :
  (row ≠ 0 → row ≠ 1 → getColor c face row col = getColor c face 2 col) ∧
  (col ≠ 0 → col ≠ 1 → getColor c face row col = getColor c face row 2).
Proof.
  split; intros H0%Z.eqb_neq H1%Z.eqb_neq; unfold getColor;
    rewrite ?H0, ?H1; reflexivity.
Qed.

Lemma getColor_treats_large_offsets_as_2_witness :
  getColor (CubeModel_of_data solved_frame) FACE.FRONT 200 0
  = getColor (CubeModel_of_data solved_frame) FACE.FRONT 2 0.
Proof.
  apply (proj1 (getColor_treats_large_offsets_as_2
                  (CubeModel_of_data solved_frame) FACE.FRONT 200 0)); lia.
Defined.

Lemma not_real_face (face : FACE.t) : ¬ 0 <= face < 6 → face ∉ real_faces.
Proof.
  intros Hf Hin. unfold real_faces in Hin.
  repeat (apply elem_of_cons in Hin as [->|Hin];
          [unfold FACE.UP, FACE.LEFT, FACE.FRONT, FACE.RIGHT, FACE.BACK,
             FACE.DOWN in Hf; lia|]).
  by apply elem_of_nil in Hin.
Qed.

Lemma real_face_range (face : FACE.t) : face ∈ real_faces → 0 <= face < 6.
Proof.
  intros Hin. unfold real_faces in Hin.
  repeat (apply elem_of_cons in Hin as [->|Hin];
          [unfold FACE.UP, FACE.LEFT, FACE.FRONT, FACE.RIGHT, FACE.BACK,
             FACE.DOWN; lia|]).
  by apply elem_of_nil in Hin.
Qed.

(** X11. The centre cell (1,1) is read from [centers] without a check of the
    face: for the faces 0..5 [getColor] returns the stored centre, for any
    other face value (such as [FACE::NONE]) the read is outside the array.
    [getFaceColors] passes through cell (1,1), so for such a face it is
    undefined although the other eight cells would be WHITE. *)
Theorem centre_cell_is_read_unchecked (c : CubeModel) (face : FACE.t) :
  (0 <= face < 6 →
   ∃ col, arr_lookup (centers c) face = Some col ∧
          getColor c face 1 1 = Ok col) ∧
  (¬ 0 <= face < 6 →
   getColor c face 1 1 = Undefined ∧ getFaceColors c face = Undefined).
Proof.
  split; intros Hf.
  - destruct (arr_idx_in_range (centers c) face) as (col & Hl & Hi);
      [simpl; lia|].
    exists col. split; [exact Hl|exact Hi].
  - assert (Hc : getColor c face 1 1 = Undefined).
    { unfold getColor, arr_idx. cbn [Z.eqb Pos.eqb andb].
      by rewrite (arr_lookup_outside (centers c) face) by (simpl; lia). }
    split; [exact Hc|].
    pose proof (not_real_face face Hf) as Hnr.
    unfold getFaceColors. cbn [mapM].
    rewrite !(getColor_default_branch c face 0) by done.
    rewrite (getColor_default_branch c face 1 0) by done.
    rewrite Hc. reflexivity.
Qed.

Lemma centre_cell_is_read_unchecked_witness :
  getColor CubeModel_default FACE.NONE 1 1 = Undefined ∧
  getFaceColors CubeModel_default FACE.NONE = Undefined.
Proof.
  apply (proj2 (centre_cell_is_read_unchecked CubeModel_default FACE.NONE)).
  unfold FACE.NONE. lia.
Defined.

(** ** Faces of a state with valid pieces *)

Lemma cell_edge_defined (c : CubeModel) (S : EDGE.t) (k : Z) :
  valid_pieces c → 0 <= S < 12 → 0 <= k < 2 →
  ∃ x, cell (getEdgeColors c S) k = Ok x.
Proof.
  intros [HV _] HS Hk.
  destruct (arr_lookup_in_range (edges c) S) as [q Hq]; [simpl; lia|].
  destruct (arr_lookup_in_range edge_pairs (index q)) as [[a b] Hab].
  { specialize (HV S q Hq). simpl. lia. }
  rewrite (getEdgeColors_by_identity c S q a b Hq Hab).
  assert (k = 0 ∨ k = 1) as [-> | ->] by lia;
    destruct (orientation q =? DIR.FLIPPED); eexists; reflexivity.
Qed.

Lemma cell_corner_defined (c : CubeModel) (S : CORNER.t) (k : Z) :
  valid_pieces c → 0 <= S < 8 → 0 <= k < 3 →
  ∃ x, cell (getCornerColors c S) k = Ok x.
Proof.
  intros [_ HV] HS Hk.
  destruct (arr_lookup_in_range (corners c) S) as [q Hq]; [simpl; lia|].
  destruct (getCornerColors_defined c S q Hq (HV S q Hq))
    as (x & y & z & ->).
  assert (k = 0 ∨ k = 1 ∨ k = 2) as [-> | [-> | ->]] by lia;
    eexists; reflexivity.
Qed.

Lemma getColor_of_valid_state (c : CubeModel) (face : FACE.t) (row col : Z) :
  valid_pieces c → 0 <= face < 6 →
  ∃ x, getColor c face row col = Ok x.
Proof.
  intros HV Hf. unfold getColor.
  repeat match goal with
  | |- context [if ?t then _ else _] => destruct t
  end;
  first
    [ apply cell_edge_defined;
      [exact HV
      |unfold EDGE.UB, EDGE.UL, EDGE.UF, EDGE.UR, EDGE.BL, EDGE.FL, EDGE.FR,
         EDGE._BR, EDGE.DB, EDGE.DL, EDGE.DF, EDGE.DR; lia
      |lia]
    | apply cell_corner_defined;
      [exact HV
      |unfold CORNER.ULB, CORNER.ULF, CORNER.URF, CORNER.URB, CORNER.DLB,
         CORNER.DLF, CORNER.DRF, CORNER.DRB; lia
      |lia]
    | by eexists
    | destruct (arr_idx_in_range (centers c) face) as (x & _ & ->);
      [simpl; lia|by eexists] ].
Qed.

Lemma getFaceColors_grid (c : CubeModel) (face : FACE.t) :
  valid_pieces c → 0 <= face < 6 →
  ∃ x00 x01 x02 x10 m x12 x20 x21 x22,
    arr_lookup (centers c) face = Some m ∧
    getFaceColors c face =
    Ok [[x00; x01; x02]; [x10; m; x12]; [x20; x21; x22]].
Proof.
  intros HV Hf.
  pose proof (λ row col, getColor_of_valid_state c face row col HV Hf) as Hg.
  destruct (arr_idx_in_range (centers c) face) as (m & Hm & Hidx);
    [simpl; lia|].
  assert (Hc : getColor c face 1 1 = Ok m) by exact Hidx.
  destruct (Hg 0 0) as [x00 H00], (Hg 0 1) as [x01 H01], (Hg 0 2) as [x02 H02],
    (Hg 1 0) as [x10 H10], (Hg 1 2) as [x12 H12],
    (Hg 2 0) as [x20 H20], (Hg 2 1) as [x21 H21], (Hg 2 2) as [x22 H22].
  exists x00, x01, x02, x10, m, x12, x20, x21, x22.
  split; [exact Hm|].
  unfold getFaceColors. cbn [mapM].
  rewrite H00, H01, H02, H10, Hc, H12, H20, H21, H22. reflexivity.
Qed.

(** X12. When every stored index is a piece identity, [getFaceColors]
    returns for each of the six faces: it gives three rows of three
    colours, and the middle cell is the stored centre of the face. *)
Theorem getFaceColors_of_valid_state (c : CubeModel) (face : FACE.t) :
  valid_pieces c → face ∈ real_faces →
  ∃ grid, getFaceColors c face = Ok grid ∧
          length grid = 3%nat ∧
          Forall (λ row, length row = 3%nat) grid ∧
          (grid !! 1%nat) ≫= (.!! 1%nat) = arr_lookup (centers c) face.
Proof.
  intros HV Hf%real_face_range.
  destruct (getFaceColors_grid c face HV Hf)
    as (x00 & x01 & x02 & x10 & m & x12 & x20 & x21 & x22 & Hm & Hg).
  eexists. split; [exact Hg|].
  split; [reflexivity|]. split; [by repeat constructor|].
  by rewrite Hm.
Qed.

Lemma valid_pieces_solved : valid_pieces (CubeModel_of_data solved_frame).
Proof.
  split; intros S q Hq.
  - pose proof (arr_lookup_inv _ _ _ Hq) as HS%slot_cases_12.
    each_slot HS; injection Hq as <-; vm_compute; split; done.
  - pose proof (arr_lookup_inv _ _ _ Hq) as HS%slot_cases_8.
    each_slot HS; injection Hq as <-; vm_compute; split; done.
Defined.

Lemma getFaceColors_of_valid_state_witness :
  ∃ grid, getFaceColors (CubeModel_of_data solved_frame) FACE.BACK = Ok grid ∧
          length grid = 3%nat ∧
          Forall (λ row, length row = 3%nat) grid ∧
          (grid !! 1%nat) ≫= (.!! 1%nat)
          = arr_lookup (centers (CubeModel_of_data solved_frame)) FACE.BACK.
Proof.
  apply (getFaceColors_of_valid_state
           (CubeModel_of_data solved_frame) FACE.BACK).
  - exact valid_pieces_solved.
  - unfold real_faces. repeat constructor.
Defined.

(** X13. The decoded state has valid pieces exactly when the frame has a
    byte of 1..8 at each corner offset 0..7 and a byte of 1..12 at each edge
    offset 16..27; byte 0 is stored as index 255. *)
Theorem decoded_pieces_valid_iff (data : frame) :
  valid_pieces (CubeModel_of_data data) ↔
  (∀ i, 0 <= i < 8 → 1 <= rd data i <= 8) ∧
  (∀ i, 0 <= i < 12 → 1 <= rd data (i + 16) <= 12).
Proof.
  assert (Hu : ∀ b m, 0 <= b < 256 → 0 < m < 256 →
                      0 <= u8 (b - 1) < m ↔ 1 <= b <= m).
  { intros b m Hb Hm. unfold u8. destruct (decide (b = 0)) as [->|].
    - change ((0 - 1) mod 256) with 255. lia.
    - rewrite Z.mod_small by lia. lia. }
  unfold valid_pieces. split.
  - intros [HE HC]. split; intros i Hi.
    + apply (Hu _ 8); [apply rd_range|lia|].
      apply (HC i (mkCubie (u8 (rd data i - 1)) (rd data (i + 8)))).
      by apply decoded_corner.
    + apply (Hu _ 12); [apply rd_range|lia|].
      pose proof (HE i _ (decoded_edge data i Hi)) as H. exact H.
  - intros [HC HE]. split; intros S q Hq.
    + pose proof (arr_lookup_inv _ _ _ Hq) as HS. simpl in HS.
      rewrite decoded_edge in Hq by lia. injection Hq as <-. cbn [index].
      apply Hu; [apply rd_range|lia|apply HE; lia].
    + pose proof (arr_lookup_inv _ _ _ Hq) as HS. simpl in HS.
      rewrite decoded_corner in Hq by lia. injection Hq as <-. cbn [index].
      apply Hu; [apply rd_range|lia|apply HC; lia].
Qed.

Lemma decoded_pieces_valid_iff_witness :
  (∀ i, 0 <= i < 8 → 1 <= rd solved_frame i <= 8) ∧
  (∀ i, 0 <= i < 12 → 1 <= rd solved_frame (i + 16) <= 12).
Proof.
  apply (proj1 (decoded_pieces_valid_iff solved_frame)).
  exact valid_pieces_solved.
Defined.

(** * Properties of main.cpp *)

(** ** Bytes and array updates *)

Lemma Z_of_byte_range (b : byte) : 0 <= Z_of_byte b < 256.
Proof. unfold Z_of_byte. pose proof (Byte.to_N_bounded b). lia. Qed.

Lemma Z_of_byte_of_Z (z : Z) : Z_of_byte (byte_of_Z z) = u8 z.
Proof.
  unfold byte_of_Z, Z_of_byte.
  assert (Hr : 0 <= u8 z < 256) by (apply Z.mod_pos_bound; lia).
  destruct (Byte.of_N (Z.to_N (u8 z))) as [b|] eqn:Hb.
  - apply Byte.to_of_N in Hb. rewrite Hb. lia.
  - apply Byte.of_N_None_iff in Hb. lia.
Qed.

Lemma vec_to_list_alter {A n} (f : A → A) (i : nat) (v : vec A n) :
  vec_to_list (vec_alter f i v) = alter f i (vec_to_list v).
Proof.
  revert i. induction v as [|x n v IH]; intros i; [by destruct i|].
  destruct i as [|i]; cbn; [done|]. by rewrite IH.
Qed.

Lemma arr_lookup_set_eq {A n} (a : vec A n) (i : Z) (x : A) :
  0 <= i < Z.of_nat n → arr_lookup (arr_set a i x) i = Some x.
Proof.
  intros Hi. destruct (arr_lookup_in_range a i Hi) as [y Hy].
  unfold arr_lookup, arr_set in *. destruct (decide (0 <= i)); [|lia].
  rewrite vec_to_list_alter, list_lookup_alter_eq, Hy. reflexivity.
Qed.

Lemma arr_lookup_set_ne {A n} (a : vec A n) (i j : Z) (x : A) :
  0 <= i → i ≠ j → arr_lookup (arr_set a i x) j = arr_lookup a j.
Proof.
  intros Hi Hne. unfold arr_lookup, arr_set.
  destruct (decide (0 <= j)); [|reflexivity].
  rewrite vec_to_list_alter, list_lookup_alter_ne; [reflexivity|lia].
Qed.

(** ** getHalfByte *)

Ltac div_lia := Z.div_mod_to_equations; lia.

Lemma getHalfByte_at {n} (pData : vec byte n) (i : Z) (b : byte) :
  0 <= i → arr_lookup pData (i / 2) = Some b →
  getHalfByte pData i =
  Ok (if i mod 2 =? 1 then Z_of_byte b mod 16 else Z_of_byte b / 16).
Proof.
  intros Hi Hb. pose proof (Z_of_byte_range b) as Hr.
  unfold getHalfByte, arr_idx.
  rewrite Z.rem_mod_nonneg, Z.quot_div_nonneg, Z.lor_0_r, Hb by lia.
  cbn [mbind result_bind].
  rewrite Z.rem_mod_nonneg, Z.quot_div_nonneg, Z.lor_0_l by lia.
  unfold u8. destruct (i mod 2 =? 1); f_equal; apply Z.mod_small; div_lia.
Qed.

(** X14. [getHalfByte] splits a byte into its two half bytes: for a byte
    [b] at offset [k] of the buffer, index [2k] gives the high half and
    index [2k+1] the low half, both in 0..15, and 16 * high + low is [b].
    For an index whose byte lies beyond the buffer the read is outside the
    buffer. *)
Theorem getHalfByte_splits_a_byte {n} (pData : vec byte n) (k : Z) :
  (∀ b, arr_lookup pData k = Some b →
     ∃ hi lo, getHalfByte pData (2 * k) = Ok hi ∧
              getHalfByte pData (2 * k + 1) = Ok lo ∧
              0 <= hi < 16 ∧ 0 <= lo < 16 ∧
              16 * hi + lo = Z_of_byte b) ∧
  (Z.of_nat n <= k →
     getHalfByte pData (2 * k) = Undefined ∧
     getHalfByte pData (2 * k + 1) = Undefined).
Proof.
  split.
  - intros b Hb. pose proof (arr_lookup_inv _ _ _ Hb) as Hk.
    pose proof (Z_of_byte_range b) as Hr.
    exists (Z_of_byte b / 16), (Z_of_byte b mod 16).
    rewrite (getHalfByte_at pData (2 * k) b),
            (getHalfByte_at pData (2 * k + 1) b);
      [|lia|by replace ((2 * k + 1) / 2) with k by div_lia
       |lia|by replace (2 * k / 2) with k by div_lia].
    replace (2 * k mod 2) with 0 by div_lia.
    replace ((2 * k + 1) mod 2) with 1 by div_lia.
    repeat split; div_lia.
  - intros Hk. unfold getHalfByte, arr_idx.
    rewrite !Z.rem_mod_nonneg, !Z.quot_div_nonneg, !Z.lor_0_r by lia.
    replace ((2 * k + 1) / 2) with k by div_lia.
    replace (2 * k / 2) with k by div_lia.
    rewrite (arr_lookup_outside pData k) by lia.
    split; by destruct (_ =? 1).
Qed.

Lemma getHalfByte_splits_a_byte_witness :
  (∃ hi lo, getHalfByte solved_packet (2 * 16) = Ok hi ∧
            getHalfByte solved_packet (2 * 16 + 1) = Ok lo ∧
            0 <= hi < 16 ∧ 0 <= lo < 16 ∧
            16 * hi + lo = Z_of_byte x53) ∧
  getHalfByte solved_packet (2 * 20) = Undefined ∧
  getHalfByte solved_packet (2 * 20 + 1) = Undefined.
Proof.
  split.
  - apply (proj1 (getHalfByte_splits_a_byte solved_packet 16)). reflexivity.
  - apply (proj2 (getHalfByte_splits_a_byte solved_packet 20)). simpl. lia.
Defined.

(** ** The notification callback *)

Lemma colorData_loop_spec {n} (pData : vec byte n) (k : nat) :
  ∀ (i : Z) (cd : frame),
  0 <= i → i + Z.of_nat k <= 36 → i + Z.of_nat k <= 2 * Z.of_nat n →
  ∃ cd', colorData_loop pData k i cd = Ok cd' ∧
    (∀ j, i <= j < i + Z.of_nat k →
       ∃ b, arr_lookup pData (j / 2) = Some b ∧
            arr_lookup cd' j = Some (byte_of_Z (half_of (Z_of_byte b) j))) ∧
    (∀ j, ¬ i <= j < i + Z.of_nat k → arr_lookup cd' j = arr_lookup cd j).
Proof.
  induction k as [|k IH]; intros i cd Hi H36 Hn.
  - exists cd. split; [reflexivity|]. split; [intros; lia|done].
  - destruct (arr_lookup_in_range pData (i / 2)) as [b Hb]; [div_lia|].
    cbn [colorData_loop]. rewrite (getHalfByte_at pData i b Hi Hb).
    cbn [mbind result_bind].
    destruct (IH (i + 1)
                (arr_set cd i (byte_of_Z
                   (if i mod 2 =? 1 then Z_of_byte b mod 16
                    else Z_of_byte b / 16))))
      as (cd' & Hcd' & Hin & Hout); [lia..|].
    exists cd'. split; [exact Hcd'|]. split.
    + intros j Hj. destruct (decide (j = i)) as [->|Hne].
      * exists b. split; [exact Hb|].
        rewrite Hout by lia. apply arr_lookup_set_eq. simpl. lia.
      * apply Hin. lia.
    + intros j Hj. rewrite Hout by lia. apply arr_lookup_set_ne; lia.
Qed.

Lemma decrypt_loop_spec {n} (offset1 offset2 : Z) (k : nat) :
  ∀ (i : Z) (p : vec byte n),
  0 <= i → i + Z.of_nat k <= 20 → (20 <= n)%nat →
  0 <= offset1 < 16 → 0 <= offset2 < 16 →
  ∃ p', decrypt_loop offset1 offset2 k i p = Ok p' ∧
    (∀ j, i <= j < i + Z.of_nat k →
       ∃ b k1 k2, arr_lookup p j = Some b ∧
                  arr_lookup AES_KEY (offset1 + j) = Some k1 ∧
                  arr_lookup AES_KEY (offset2 + j) = Some k2 ∧
                  arr_lookup p' j
                  = Some (byte_of_Z (Z_of_byte b + (k1 + k2)))) ∧
    (∀ j, ¬ i <= j < i + Z.of_nat k → arr_lookup p' j = arr_lookup p j).
Proof.
  induction k as [|k IH]; intros i p Hi H20 Hn Ho1 Ho2.
  - exists p. split; [reflexivity|]. split; [intros; lia|done].
  - destruct (arr_idx_in_range AES_KEY (offset1 + i)) as (k1 & Hk1 & Hi1);
      [simpl; lia|].
    destruct (arr_idx_in_range AES_KEY (offset2 + i)) as (k2 & Hk2 & Hi2);
      [simpl; lia|].
    destruct (arr_idx_in_range p i) as (b & Hb & Hib); [lia|].
    cbn [decrypt_loop]. rewrite Hi1, Hi2, Hib. cbn [mbind result_bind].
    destruct (IH (i + 1)
                (arr_set p i (byte_of_Z (Z_of_byte b + (k1 + k2)))))
      as (p' & Hp' & Hin & Hout); [lia..|].
    exists p'. split; [exact Hp'|]. split.
    + intros j Hj. destruct (decide (j = i)) as [->|Hne].
      * exists b, k1, k2. repeat (split; [done|]).
        rewrite Hout by lia. apply arr_lookup_set_eq. lia.
      * destruct (Hin j) as (b' & k1' & k2' & Hb' & ? & ? & ?); [lia|].
        exists b', k1', k2'. rewrite arr_lookup_set_ne in Hb' by lia. done.
    + intros j Hj. rewrite Hout by lia. apply arr_lookup_set_ne; lia.
Qed.

Lemma rd_of_lookup (f : frame) (j : Z) (b : byte) :
  arr_lookup f j = Some b → rd f j = Z_of_byte b.
Proof. intros H. unfold rd. by rewrite H. Qed.

Lemma half_of_range (B j : Z) : 0 <= B < 256 → 0 <= half_of B j < 16.
Proof. intros HB. unfold half_of. destruct (_ =? 1); div_lia. Qed.

Lemma half_of_join (B k : Z) :
  0 <= k → 16 * half_of B (2 * k) + half_of B (2 * k + 1) = B.
Proof.
  intros Hk. unfold half_of.
  replace (2 * k mod 2) with 0 by div_lia.
  replace ((2 * k + 1) mod 2) with 1 by div_lia.
  cbn [Z.eqb Pos.eqb]. div_lia.
Qed.

Lemma colorData_of_clear_packet {n} (p : vec byte n) :
  (18 <= n)%nat →
  ∃ f, colorData_loop p 36 0 (vreplicate 36 x00) = Ok f ∧
       ∀ j, 0 <= j < 36 →
         ∃ b, arr_lookup p (j / 2) = Some b ∧
              rd f j = half_of (Z_of_byte b) j.
Proof.
  intros Hn.
  destruct (colorData_loop_spec p 36 0 (vreplicate 36 x00))
    as (f & Hf & Hin & _); [lia..|].
  exists f. split; [exact Hf|]. intros j Hj.
  destruct (Hin j) as (b & Hb & Hl); [simpl; lia|].
  exists b. split; [exact Hb|].
  rewrite (rd_of_lookup f j _ Hl), Z_of_byte_of_Z. unfold u8.
  apply Z.mod_small. pose proof (half_of_range (Z_of_byte b) j
                                   (Z_of_byte_range b)). lia.
Qed.

Lemma callback_decrypts {n} (pData : vec byte n) (b18 b19 : byte) :
  (20 <= n)%nat →
  arr_lookup pData 18 = Some b18 → Z_of_byte b18 = 0xA7 →
  arr_lookup pData 19 = Some b19 →
  ∃ p' : vec byte n,
    callback_colorData pData = colorData_loop p' 36 0 (vreplicate 36 x00) ∧
    ∀ j, 0 <= j < 20 →
      ∃ b k1 k2, arr_lookup pData j = Some b ∧
        arr_lookup AES_KEY (Z_of_byte b19 / 16 + j) = Some k1 ∧
        arr_lookup AES_KEY (Z_of_byte b19 mod 16 + j) = Some k2 ∧
        arr_lookup p' j = Some (byte_of_Z (Z_of_byte b + (k1 + k2))).
Proof.
  intros Hn H18 Hmark H19. pose proof (Z_of_byte_range b19) as Hr.
  unfold callback_colorData, arr_idx. rewrite H18. cbn [mbind result_bind].
  rewrite Hmark. cbn [Z.eqb Pos.eqb].
  rewrite (getHalfByte_at pData 38 b19), (getHalfByte_at pData 39 b19);
    [|lia|exact H19|lia|exact H19].
  cbn [mbind result_bind].
  change (38 mod 2 =? 1) with false. change (39 mod 2 =? 1) with true.
  cbv iota.
  destruct (decrypt_loop_spec (Z_of_byte b19 / 16) (Z_of_byte b19 mod 16)
              20 0 pData) as (p' & Hp' & Hin & _); [lia|simpl; lia|lia| | |].
  { div_lia. } { div_lia. }
  rewrite Hp'. cbn [mbind result_bind]. exists p'. split; [reflexivity|].
  intros j Hj. apply Hin. simpl. lia.
Qed.

(** X15. The callback has no length test in the build as configured
    ([DEBUG_SERIAL_OUTPUT] false).  On a notification of at least 20 bytes
    it stays inside the notification and inside the 36-entry key table and
    hands the constructor 36 values that are all in 0..15.  On one of at
    most 18 bytes it reads byte 18 outside the notification, and on one of
    19 bytes with the mark 0xA7 it reads byte 19 outside it. *)
Theorem callback_needs_twenty_bytes {n} (pData : vec byte n) :
  ((20 <= n)%nat →
   ∃ f, callback_colorData pData = Ok f ∧
        ∀ j, 0 <= j < 36 → 0 <= rd f j < 16) ∧
  ((n <= 18)%nat →
   callback_colorData pData = Undefined ∧
   onDataNotifyCallback pData = Undefined) ∧
  (n = 19%nat →
   ∀ b18, arr_lookup pData 18 = Some b18 → Z_of_byte b18 = 0xA7 →
          callback_colorData pData = Undefined).
Proof.
  split; [|split].
  - intros Hn.
    destruct (arr_lookup_in_range pData 18) as [b18 H18]; [lia|].
    assert (∃ p' : vec byte n,
              callback_colorData pData
              = colorData_loop p' 36 0 (vreplicate 36 x00)) as [p' ->].
    { destruct (Z.eqb_spec (Z_of_byte b18) 0xA7) as [Hmark|Hclear].
      - destruct (arr_lookup_in_range pData 19) as [b19 H19]; [lia|].
        destruct (callback_decrypts pData b18 b19 Hn H18 Hmark H19)
          as (p' & Hp' & _). by exists p'.
      - exists pData. unfold callback_colorData, arr_idx. rewrite H18.
        cbn [mbind result_bind]. apply Z.eqb_neq in Hclear.
        by rewrite Hclear. }
    destruct (colorData_of_clear_packet p') as (f & Hf & Hcells); [lia|].
    exists f. split; [exact Hf|]. intros j Hj.
    destruct (Hcells j Hj) as (b & _ & ->).
    apply half_of_range, Z_of_byte_range.
  - intros Hn.
    assert (H : callback_colorData pData = Undefined).
    { unfold callback_colorData, arr_idx.
      by rewrite (arr_lookup_outside pData 18) by lia. }
    split; [exact H|]. unfold onDataNotifyCallback. by rewrite H.
  - intros -> b18 H18 Hmark.
    unfold callback_colorData, arr_idx. rewrite H18.
    cbn [mbind result_bind]. rewrite Hmark. cbn [Z.eqb Pos.eqb].
    unfold getHalfByte, arr_idx.
    change (Z.lor (Z.quot 38 2) 0) with 19. cbn [Z.rem Z.eqb].
    by rewrite (arr_lookup_outside pData 19) by (simpl; lia).
Qed.

Lemma callback_needs_twenty_bytes_witness :
  (∃ f, callback_colorData marked_packet = Ok f ∧
        ∀ j, 0 <= j < 36 → 0 <= rd f j < 16) ∧
  callback_colorData short_packet = Undefined.
Proof.
  split.
  - apply (proj1 (callback_needs_twenty_bytes marked_packet)). lia.
  - apply (proj2 (proj2 (callback_needs_twenty_bytes short_packet))
             eq_refl xa7); reflexivity.
Defined.

Lemma callback_clear {n} (pData : vec byte n) (b18 : byte) :
  arr_lookup pData 18 = Some b18 → Z_of_byte b18 ≠ 0xA7 →
  callback_colorData pData = colorData_loop pData 36 0 (vreplicate 36 x00).
Proof.
  intros H18 Hclear%Z.eqb_neq. unfold callback_colorData, arr_idx.
  rewrite H18. cbn [mbind result_bind]. by rewrite Hclear.
Qed.

Lemma frame_cells_join {n} (p : vec byte n) (f : frame) (k : Z) (b : byte) :
  (∀ j, 0 <= j < 36 →
     ∃ b, arr_lookup p (j / 2) = Some b ∧ rd f j = half_of (Z_of_byte b) j) →
  0 <= k < 18 → arr_lookup p k = Some b →
  rd f (2 * k) = Z_of_byte b / 16 ∧ rd f (2 * k + 1) = Z_of_byte b mod 16 ∧
  16 * rd f (2 * k) + rd f (2 * k + 1) = Z_of_byte b.
Proof.
  intros Hcells Hk Hb.
  destruct (Hcells (2 * k)) as (b0 & Hb0 & ->); [lia|].
  destruct (Hcells (2 * k + 1)) as (b1 & Hb1 & ->); [lia|].
  replace (2 * k / 2) with k in Hb0 by div_lia.
  replace ((2 * k + 1) / 2) with k in Hb1 by div_lia.
  rewrite Hb in Hb0, Hb1. injection Hb0 as <-. injection Hb1 as <-.
  split; [|split; [|apply half_of_join; lia]]; unfold half_of.
  - by replace (2 * k mod 2) with 0 by div_lia.
  - by replace ((2 * k + 1) mod 2) with 1 by div_lia.
Qed.

Lemma callback_clear_cells {n} (pData : vec byte n) (b18 : byte) :
  arr_lookup pData 18 = Some b18 → Z_of_byte b18 ≠ 0xA7 →
  ∃ f, callback_colorData pData = Ok f ∧
    ∀ k b, 0 <= k < 18 → arr_lookup pData k = Some b →
      rd f (2 * k) = Z_of_byte b / 16 ∧
      rd f (2 * k + 1) = Z_of_byte b mod 16 ∧
      16 * rd f (2 * k) + rd f (2 * k + 1) = Z_of_byte b.
Proof.
  intros H18 Hclear. rewrite (callback_clear pData b18 H18 Hclear).
  pose proof (arr_lookup_inv _ _ _ H18) as Hn.
  destruct (colorData_of_clear_packet pData) as (f & Hf & Hcells); [lia|].
  exists f. split; [exact Hf|]. intros k b Hk Hb.
  by apply (frame_cells_join pData).
Qed.

(** X16. For a notification in the clear (byte 18 is not 0xA7) the 36
    values handed to the constructor are the half bytes of bytes 0..17,
    high half first: 16 times value 2k plus value 2k+1 gives byte k back. *)
Theorem clear_packet_is_split_into_the_frame {n} (pData : vec byte n)
    (b18 : byte) :
  arr_lookup pData 18 = Some b18 → Z_of_byte b18 ≠ 0xA7 →
  ∃ f, callback_colorData pData = Ok f ∧
    ∀ k b, 0 <= k < 18 → arr_lookup pData k = Some b →
      rd f (2 * k) = Z_of_byte b / 16 ∧
      rd f (2 * k + 1) = Z_of_byte b mod 16 ∧
      16 * rd f (2 * k) + rd f (2 * k + 1) = Z_of_byte b.
Proof. apply callback_clear_cells. Qed.

Lemma clear_packet_is_split_into_the_frame_witness :
  ∃ f, callback_colorData solved_packet = Ok f ∧
    ∀ k b, 0 <= k < 18 → arr_lookup solved_packet k = Some b →
      rd f (2 * k) = Z_of_byte b / 16 ∧
      rd f (2 * k + 1) = Z_of_byte b mod 16 ∧
      16 * rd f (2 * k) + rd f (2 * k + 1) = Z_of_byte b.
Proof.
  apply (clear_packet_is_split_into_the_frame solved_packet x00);
    [reflexivity | vm_compute; discriminate].
Defined.

(** X17. For a notification with the mark 0xA7 in byte 18, the two half
    bytes of byte 19 are taken as offsets into the key table, and the frame
    is split from the bytes [pData[k] + AES_KEY[offset1+k] +
    AES_KEY[offset2+k]] modulo 256, for k in 0..17. *)
Theorem marked_packet_is_shifted_by_the_key {n} (pData : vec byte n)
    (b18 b19 : byte) :
  (20 <= n)%nat →
  arr_lookup pData 18 = Some b18 → Z_of_byte b18 = 0xA7 →
  arr_lookup pData 19 = Some b19 →
  ∃ f, callback_colorData pData = Ok f ∧
    ∀ k, 0 <= k < 18 →
      ∃ b k1 k2,
        arr_lookup pData k = Some b ∧
        arr_lookup AES_KEY (Z_of_byte b19 / 16 + k) = Some k1 ∧
        arr_lookup AES_KEY (Z_of_byte b19 mod 16 + k) = Some k2 ∧
        16 * rd f (2 * k) + rd f (2 * k + 1)
        = (Z_of_byte b + (k1 + k2)) mod 256.
Proof.
  intros Hn H18 Hmark H19.
  destruct (callback_decrypts pData b18 b19 Hn H18 Hmark H19)
    as (p' & -> & Hp').
  destruct (colorData_of_clear_packet p') as (f & Hf & Hcells); [lia|].
  exists f. split; [exact Hf|]. intros k Hk.
  destruct (Hp' k) as (b & k1 & k2 & Hb & Hk1 & Hk2 & Hnew); [lia|].
  exists b, k1, k2. repeat (split; [done|]).
  destruct (frame_cells_join p' f k _ Hcells Hk Hnew) as (_ & _ & ->).
  apply Z_of_byte_of_Z.
Qed.

Lemma marked_packet_is_shifted_by_the_key_witness :
  ∃ f, callback_colorData marked_packet = Ok f ∧
    ∀ k, 0 <= k < 18 →
      ∃ b k1 k2,
        arr_lookup marked_packet k = Some b ∧
        arr_lookup AES_KEY (Z_of_byte x00 / 16 + k) = Some k1 ∧
        arr_lookup AES_KEY (Z_of_byte x00 mod 16 + k) = Some k2 ∧
        16 * rd f (2 * k) + rd f (2 * k + 1)
        = (Z_of_byte b + (k1 + k2)) mod 256.
Proof.
  apply (marked_packet_is_shifted_by_the_key marked_packet xa7 x00);
    [lia | reflexivity | reflexivity | reflexivity].
Defined.

(** X18. For a notification in the clear the callback prints the high half
    of byte 16 as the turned face, a space, and then 0 when the low half of
    byte 16 is 1 and 1 otherwise, followed by the line end. *)
Theorem callback_prints_the_halves_of_byte_16 {n} (pData : vec byte n)
    (b16 b18 : byte) :
  arr_lookup pData 16 = Some b16 →
  arr_lookup pData 18 = Some b18 → Z_of_byte b18 ≠ 0xA7 →
  onDataNotifyCallback pData =
  Ok [out_u8 (Z_of_byte b16 / 16); out_str " ";
      out_u8 (if Z_of_byte b16 mod 16 =? 1 then 0 else 1); out_newline].
Proof.
  intros H16 H18 Hclear. pose proof (Z_of_byte_range b16) as Hr.
  destruct (callback_clear_cells pData b18 H18 Hclear) as (f & Hf & Hcells).
  destruct (Hcells 16 b16) as (H32 & H33 & _); [lia|exact H16|].
  change (2 * 16) with 32 in H32. change (2 * 16 + 1) with 33 in H33.
  unfold onDataNotifyCallback. rewrite Hf. cbn [mbind result_bind].
  unfold CubeModel_of_data. cbn [turnedFace turnedDir].
  rewrite H32, H33. unfold u8. rewrite Z.mod_small by div_lia. reflexivity.
Qed.

Lemma callback_prints_the_halves_of_byte_16_witness :
  onDataNotifyCallback solved_packet =
  Ok [out_u8 (Z_of_byte x53 / 16); out_str " ";
      out_u8 (if Z_of_byte x53 mod 16 =? 1 then 0 else 1); out_newline].
Proof.
  apply (callback_prints_the_halves_of_byte_16 solved_packet x53 x00);
    [reflexivity | reflexivity | vm_compute; discriminate].
Defined.

(** ** printCube *)










(** X20. [colorToString] gives each of the six colours its own letter:
    different colours never print alike, and no colour prints as the
    fallback letter X. *)
Theorem colorToString_is_injective (a b : COLOR.t) :
  (colorToString a = colorToString b → a = b) ∧
  colorToString a ≠ "X"%string ∧
  String.length (colorToString a) = 1%nat.
Proof.
  split; [|split].
  - destruct a, b; intros H; first [reflexivity | discriminate H].
  - destruct a; discriminate.
  - destruct a; reflexivity.
Qed.

Lemma colorToString_is_injective_witness :
  COLOR.RED = COLOR.RED.
Proof.
  apply (proj1 (colorToString_is_injective COLOR.RED COLOR.RED)).
  reflexivity.
Defined.

(** X21. A state that [operator==] reports equal to the default state
    shows six uniform faces.  [isSolved] alone does not give that: the
    state decoded from [frame_DRF_twice] is solved for [isSolved] and its
    DOWN face has a white cell. *)
Theorem equal_to_default_shows_uniform_faces :
  (∀ c, equal c CubeModel_default = Ok true →
        getFaceColors c <$> real_faces =
        (λ col, Ok (uniform_grid col)) <$>
          [COLOR.GREEN; COLOR.RED; COLOR.WHITE; COLOR.ORANGE; COLOR.YELLOW;
           COLOR.BLUE]) ∧
  isSolved (CubeModel_of_data frame_DRF_twice) = Ok true ∧
  getColor (CubeModel_of_data frame_DRF_twice) FACE.DOWN 0 2
  = Ok COLOR.WHITE.
Proof.
  split; [|split; vm_compute; reflexivity].
  intros c (HE & HC & HX)%equal_true_iff.
  assert (Hg : ∀ f, getFaceColors c f = getFaceColors CubeModel_default f)
    by (intros; by apply getFaceColors_fields).
  unfold real_faces. cbn [fmap list_fmap]. rewrite !Hg.
  vm_compute. reflexivity.
Qed.

Lemma equal_to_default_shows_uniform_faces_witness :
  getFaceColors (CubeModel_of_data frame_other_move) <$> real_faces =
  (λ col, Ok (uniform_grid col)) <$>
    [COLOR.GREEN; COLOR.RED; COLOR.WHITE; COLOR.ORANGE; COLOR.YELLOW;
     COLOR.BLUE].
Proof.
  apply (proj1 equal_to_default_shows_uniform_faces).
  vm_compute. reflexivity.
Defined.
